(** * extensible-storage-pyrevit: a shallow embedding

    The Python library wraps the host application's Extensible Storage API
    (schemas, fields, entities attached to elements).  Each Python function
    of the library is translated into a Rocq function of the same name; the
    host API, which is not part of the library, is a parameter (class
    [Host]) except where the host merely records what it is told. *)

From stdpp Require Import gmap strings list fin_maps.

Open Scope string_scope.

(** ** Python exceptions and the result of a call *)

Inductive PyExc :=
| ValueError (msg : string)
| TypeError (msg : string)
| AttributeError (msg : string)
| StopIteration
| IndexError
| RuntimeError (msg : string)
| HostError (msg : string).

Inductive Result (A : Type) :=
| Ok (a : A)
| Raise (e : PyExc).
Arguments Ok {A} a.
Arguments Raise {A} e.

Definition bind {A B} (r : Result A) (k : A -> Result B) : Result B :=
  match r with
  | Ok a => k a
  | Raise e => Raise e
  end.

Notation "x <- r ;; k" := (bind r (fun x => k))
  (at level 100, r at next level, right associativity).

Definition is_ok {A} (r : Result A) : bool :=
  match r with Ok _ => true | Raise _ => false end.

(** ** Host types *)

(** CLR types, as the objects [System.Int32], [DB.XYZ], [IList[T]], ... *)
Inductive NetType :=
| Int32 | Int16 | Byte | Double | Single | Boolean | String_ | Guid_
| ElementId | XYZ | UV | EntityType
| IList (t : NetType)
| IDictionary (k v : NetType)
| List_ (t : NetType)
| Dictionary (k v : NetType)
| OtherType (name : string).

#[global] Instance NetType_eq_dec : EqDecision NetType.
Proof. solve_decision. Defined.

Inductive ContainerType := Simple | Array | Map.

#[global] Instance ContainerType_eq_dec : EqDecision ContainerType.
Proof. solve_decision. Defined.

Inductive AccessLevel := Public | Vendor | Application.

#[global] Instance AccessLevel_eq_dec : EqDecision AccessLevel.
Proof. solve_decision. Defined.

(** [System.Guid] values and [DB.ForgeTypeId] identifiers. *)
Definition Guid := N.
Definition ForgeTypeId := string.

(** ** Python objects passed to declarations *)

Inductive Builtin := py_int | py_float | py_bool | py_str.

#[global] Instance Builtin_eq_dec : EqDecision Builtin.
Proof. solve_decision. Defined.

(** The dynamically typed arguments a schema or field declaration can
    receive.  [PyBuiltin] is a type written as [int], [float], [bool] or
    [str], [PyNetType] a type written as a CLR type; see [type_object]. *)
Inductive PyObj :=
| PyNone
| PyStr (s : string)
| PyInt (z : Z)
| PyBool (b : bool)
| PyBuiltin (b : Builtin)
| PyNetType (t : NetType)
| PyContainerType (c : ContainerType)
| PyAccessLevel (a : AccessLevel)
| PyForgeTypeId (f : ForgeTypeId)
| PyGuid (g : Guid).

#[global] Instance PyObj_eq_dec : EqDecision PyObj.
Proof. solve_decision. Defined.

(** Python truth value ([if not x]). *)
Definition truthy (o : PyObj) : bool :=
  match o with
  | PyNone => false
  | PyStr s => negb (bool_decide (s = ""))
  | PyInt z => negb (bool_decide (z = 0%Z))
  | PyBool b => b
  | _ => true
  end.

(** Under IronPython, the Python 2 runtime the library runs on, the
    builtins are CLR types: [int is System.Int32], [float is System.Double],
    [bool is System.Boolean] and [str is System.String]. *)
Definition builtin_type (b : Builtin) : NetType :=
  match b with
  | py_int => Int32
  | py_float => Double
  | py_bool => Boolean
  | py_str => String_
  end.

(** The type object a Python object is, if it is one; both spellings of a
    builtin give the same object. *)
Definition type_object (o : PyObj) : option NetType :=
  match o with
  | PyNetType t => Some t
  | PyBuiltin b => Some (builtin_type b)
  | _ => None
  end.

(** [x is b] for a builtin type object [b]. *)
Definition is_builtin (o : PyObj) (b : Builtin) : bool :=
  bool_decide (type_object o = Some (builtin_type b)).

(** What ['{}'.format(x)] prints; only used in messages. *)
Definition format_obj (o : PyObj) : string :=
  match o with
  | PyNone => "None"
  | PyStr s => s
  | PyInt _ => "<int>"
  | PyBool true => "True"
  | PyBool false => "False"
  | PyBuiltin py_int => "<type 'int'>"
  | PyBuiltin py_float => "<type 'float'>"
  | PyBuiltin py_bool => "<type 'bool'>"
  | PyBuiltin py_str => "<type 'str'>"
  | PyNetType _ => "<type>"
  | PyContainerType Simple => "Simple"
  | PyContainerType Array => "Array"
  | PyContainerType Map => "Map"
  | PyAccessLevel _ => "<AccessLevel>"
  | PyForgeTypeId f => f
  | PyGuid _ => "<Guid>"
  end.

(** ** field.py *)

Definition ALLOWED_VALUE_TYPES : list (string * NetType) :=
  [ ("int32", Int32); ("int16", Int16); ("byte", Byte); ("double", Double);
    ("single", Single); ("boolean", Boolean); ("string", String_);
    ("guid", Guid_); ("element_id", ElementId); ("xyz", XYZ); ("uv", UV);
    ("entity", EntityType) ].

Definition ALLOWED_KEY_TYPES : list (string * NetType) :=
  [ ("int32", Int32); ("int16", Int16); ("byte", Byte); ("boolean", Boolean);
    ("string", String_); ("guid", Guid_); ("element_id", ElementId) ].

(** [d[k]] / [k in d] for a dict literal. *)
Fixpoint dict_get {V} (d : list (string * V)) (k : string) : option V :=
  match d with
  | [] => None
  | (k', v) :: d' => if bool_decide (k' = k) then Some v else dict_get d' k
  end.

(** [data_type in allowed_types.values()]: only a type object can be
    equal to one of the values; the match found is the object itself. *)
Definition in_values (data_type : PyObj) (allowed_types : list (string * NetType))
  : option NetType :=
  match type_object data_type with
  | Some t => if bool_decide (t ∈ allowed_types.*2) then Some t else None
  | None => None
  end.

Definition invalid_data_type {A} (data_type : PyObj) : Result A :=
  Raise (ValueError ("Invalid data type '" ++ format_obj data_type ++ "'")).

Definition resolve_type (data_type : PyObj) (allowed_types : list (string * NetType))
  : Result NetType :=
  match in_values data_type allowed_types with
  | Some t => Ok t
  | None =>
      if is_builtin data_type py_int then Ok Int32
      else if is_builtin data_type py_float then Ok Double
      else if is_builtin data_type py_bool then Ok Boolean
      else if is_builtin data_type py_str then Ok String_
      else
        match data_type with
        | PyStr s =>
            match dict_get allowed_types s with
            | Some t => Ok t
            | None => invalid_data_type data_type
            end
        | _ => invalid_data_type data_type
        end
  end.

(** The attributes of a [FieldDescriptor] after [__init__].  [key_type] and
    [sub_schema_guid] keep whatever object the constructor left there. *)
Record FieldDescriptor := {
  name : string;
  documentation : PyObj;
  container_type : ContainerType;
  value_type : NetType;
  key_type : PyObj;
  spec_type_id : option ForgeTypeId;
  sub_schema_guid : PyObj;
}.

(** [ES.Field] *)
Record ES_Field := {
  FieldName : string;
  FieldContainerType : ContainerType;
  ValueType : NetType;
  KeyType : option NetType;
  GetSpecTypeId : ForgeTypeId;
  SubSchemaGUID : option Guid;
  FieldDocumentation : PyObj;
}.

#[global] Instance ES_Field_eq_dec : EqDecision ES_Field.
Proof. solve_decision. Defined.

(** [ES.Schema] *)
Record ES_Schema := {
  GUID : Guid;
  SchemaName : string;
  Documentation : PyObj;
  ReadAccessLevel : AccessLevel;
  WriteAccessLevel : AccessLevel;
  VendorId : option string;
  ApplicationGUID : option Guid;
  ListFields : list ES_Field;
}.

#[global] Instance ES_Schema_eq_dec : EqDecision ES_Schema.
Proof. solve_decision. Defined.

(** [schema.GetField(name)]: the field of that name, or [None]. *)
Definition GetField (schema : ES_Schema) (field_name : string) : option ES_Field :=
  List.find (fun f => bool_decide (FieldName f = field_name)) (ListFields schema).

(** Values held by fields and passed to [get]/[set]: Python values and the
    CLR values the host hands back. *)
#[warnings="-register-all"]
Inductive Value :=
| VNone
| VInt (z : Z)
| VFloat (bits : Z)
| VBool (b : bool)
| VStr (s : string)
| VGuid (g : Guid)
| VElementId (id : Z)
| VHostEntity (h : N)
| VEntity (h : N)
| VList (l : list Value)
| VTuple (l : list Value)
| VSet (l : list Value)
| VDict (items : list (Value * Value))
| VNetList (t : NetType) (l : list Value)
| VNetDict (k v : NetType) (items : list (Value * Value)).

(** [framework.get_type(type(x))] *)
Definition type_of (x : Value) : NetType :=
  match x with
  | VNone => OtherType "NoneType"
  | VInt _ => Int32
  | VFloat _ => Double
  | VBool _ => Boolean
  | VStr _ => String_
  | VGuid _ => Guid_
  | VElementId _ => ElementId
  | VHostEntity _ => EntityType
  | VEntity _ => OtherType "extensible_storage.entity.Entity"
  | VList _ => OtherType "list"
  | VTuple _ => OtherType "tuple"
  | VSet _ => OtherType "set"
  | VDict _ => OtherType "dict"
  | VNetList t _ => List_ t
  | VNetDict k v _ => Dictionary k v
  end.

(** [next(iter(xs))] *)
Definition next_iter {A} (xs : list A) : Result A :=
  match xs with
  | x :: _ => Ok x
  | [] => Raise StopIteration
  end.

(** [ES.Entity]: the schema it conforms to ([None] for an invalid entity)
    and the values stored under its field names. *)
Record ES_Entity := {
  Schema : option ES_Schema;
  stored : gmap string Value;
}.

(** [entity.IsValid()] *)
Definition IsValid (e : ES_Entity) : bool :=
  match Schema e with Some _ => true | None => false end.

(** [ES.SchemaBuilder] and [ES.FieldBuilder]: the host records what it is
    told; fields are kept in the order of the [Add...Field] calls. *)
Record ES_FieldBuilder := {
  fb_name : string;
  fb_container : ContainerType;
  fb_value_type : NetType;
  fb_key_type : option NetType;
  fb_documentation : PyObj;
  fb_spec : option ForgeTypeId;
  fb_sub_schema_guid : option Guid;
}.

Record ES_SchemaBuilder := {
  sb_guid : Guid;
  sb_name : option string;
  sb_documentation : PyObj;
  sb_read_access : AccessLevel;
  sb_write_access : AccessLevel;
  sb_vendor_id : option string;
  sb_application_guid : option Guid;
  sb_fields : list ES_FieldBuilder;
}.

(** A class attribute: a plain object or a field descriptor. *)
Inductive Attr :=
| AttrObj (o : PyObj)
| AttrField (fd : FieldDescriptor).

(** A schema class: its name, the items of its [__dict__] in iteration
    order, the [_schema] entry the metaclass keeps there ([None] when the
    class has no such entry, [Some None] when the entry is [None]), and the
    rest of its method resolution order (nearest base first). *)
#[warnings="-register-all"]
Inductive PyClass :=
  mkClass (cls_name : string) (cls_dict : list (string * Attr))
          (_schema : option (option ES_Schema)) (cls_bases : list PyClass).

Definition cls_name (c : PyClass) := let 'mkClass n _ _ _ := c in n.
Definition cls_dict (c : PyClass) := let 'mkClass _ d _ _ := c in d.
Definition _schema (c : PyClass) := let 'mkClass _ _ s _ := c in s.
Definition cls_bases (c : PyClass) := let 'mkClass _ _ _ b := c in b.

(** [cls.mro()] *)
Definition mro (c : PyClass) : list PyClass := c :: cls_bases c.

(** [cls._schema = s] *)
Definition set_schema (c : PyClass) (s : ES_Schema) : PyClass :=
  mkClass (cls_name c) (cls_dict c) (Some (Some s)) (cls_bases c).

(** [d[k] = v] *)
Fixpoint dict_set {V} (d : list (string * V)) (k : string) (v : V) : list (string * V) :=
  match d with
  | [] => [(k, v)]
  | (k', v') :: d' =>
      if bool_decide (k' = k) then (k, v) :: d' else (k', v') :: dict_set d' k v
  end.

(** The [field] argument of [get], [set] and [clear]: a name, [None], a
    host field, or the library's [Field] wrapper around one. *)
Inductive FieldArg :=
| ArgName (s : string)
| ArgNone
| ArgField (f : ES_Field)
| ArgWrapper (f : ES_Field).

(** [Element]: its name and the entities stored on it, one per schema. *)
Record Element := {
  Name : string;
  entities : gmap Guid ES_Entity;
}.

(** ** The host API and the CLR runtime

    What the library calls but does not define.  Whether the host accepts
    a call, and what an entity returns for a field, is left to the host. *)
Class Host := {
  (* System.Guid(str): [None] when the string is not a GUID *)
  Guid_parse : string -> option Guid;
  (* List[T](iterable) and Dictionary[K, V](mapping) *)
  List_new : NetType -> list Value -> Result Value;
  Dictionary_new : NetType -> NetType -> list (Value * Value) -> Result Value;
  (* ES.SchemaBuilder *)
  GUIDIsValid : Guid -> bool;
  AcceptableName : string -> bool;
  VendorIdIsValid : string -> bool;
  AddField_accepts : ES_SchemaBuilder -> ES_FieldBuilder -> bool;
  Finish_accepts : list ES_Schema -> ES_SchemaBuilder -> bool;
  (* ES.FieldBuilder *)
  NeedsUnits : ES_FieldBuilder -> bool;
  NeedsSubSchemaGUID : ES_FieldBuilder -> bool;
  SetSpec_accepts : ES_FieldBuilder -> ForgeTypeId -> bool;
  SetSubSchemaGUID_accepts : ES_FieldBuilder -> Guid -> bool;
  (* DB.SpecTypeId.Number, DB.UnitTypeId.General, DB.UnitUtils *)
  SpecTypeId_Number : ForgeTypeId;
  UnitTypeId_General : ForgeTypeId;
  IsMeasurableSpec : ForgeTypeId -> bool;
  GetValidUnits : ForgeTypeId -> list ForgeTypeId;
  (* ES.Entity: Get[T](field, unit), Set[T](field, value, unit) with T
     given or inferred ([None]), Clear(field) *)
  Entity_Get : ES_Entity -> NetType -> string + ES_Field -> ForgeTypeId -> Result Value;
  Entity_Set : ES_Entity -> option NetType -> string + ES_Field -> Value -> ForgeTypeId
               -> Result ES_Entity;
  Entity_Clear : ES_Entity -> string + ES_Field -> Result ES_Entity;
  (* Element.SetEntity(entity) *)
  SetEntity_accepts : Element -> ES_Entity -> bool;
}.

Section Library.
Context `{Host}.

(** *** field.py, continued *)

(** [isinstance(container_type, ES.ContainerType)] *)
Definition as_container_type (o : PyObj) : option ContainerType :=
  match o with PyContainerType c => Some c | _ => None end.

(** [System.Guid(s)] *)
Definition System_Guid (s : string) : Result Guid :=
  match Guid_parse s with
  | Some g => Ok g
  | None => Raise (HostError "FormatException")
  end.

(** [FieldDescriptor.__init__(name, container_type, value_type, key_type,
    documentation=..., spec_type_id=..., sub_schema_guid=...)] *)
Definition FieldDescriptor_init (name_ : string) (container_type_ value_type_ key_type_ : PyObj)
    (documentation_ spec_type_id_ sub_schema_guid_ : PyObj) : Result FieldDescriptor :=
  (* Validate the container type *)
  match as_container_type container_type_ with
  | None => Raise (ValueError ("Invalid field container type: " ++ format_obj container_type_))
  | Some ct =>
      (* Validate the value type *)
      vt <- resolve_type value_type_ ALLOWED_VALUE_TYPES ;;
      (* Validate the key type *)
      kt <- (if bool_decide (ct = Map) then
               if bool_decide (key_type_ = PyNone)
               then Raise (ValueError "Missing key type for Map field")
               else (t <- resolve_type key_type_ ALLOWED_KEY_TYPES ;; Ok (PyNetType t))
             else Ok key_type_) ;;
      (* Validate the spec type *)
      spec <- match spec_type_id_ with
              | PyNone => Ok None
              | PyForgeTypeId f => Ok (Some f)
              | _ => Raise (ValueError ("Invalid spec type: " ++ format_obj spec_type_id_))
              end ;;
      (* Validate the sub schema guid *)
      sub <- (if bool_decide (value_type_ = PyNetType EntityType) then
                if negb (truthy sub_schema_guid_)
                then Raise (ValueError "A valid sub schema GUID must be provided")
                else match sub_schema_guid_ with
                     | PyStr s => (g <- System_Guid s ;; Ok (PyGuid g))
                     | _ => Ok sub_schema_guid_
                     end
              else Ok sub_schema_guid_) ;;
      Ok {| name := name_; documentation := documentation_; container_type := ct;
            value_type := vt; key_type := kt; spec_type_id := spec;
            sub_schema_guid := sub |}
  end.

(** [schema_field(container_type, value_type, key_type, spec_type_id=...,
    guid=...)(func)], with [func.__name__] and [func.__doc__]. *)
Definition schema_field (container_type_ value_type_ key_type_ spec_type_id_ guid_ : PyObj)
    (func_name : string) (func_doc : PyObj) : Result FieldDescriptor :=
  FieldDescriptor_init func_name container_type_ value_type_ key_type_
                       func_doc spec_type_id_ guid_.

(** Attribute access on an object that may be [None]. *)
Definition getattr {A} (o : option A) (attr : string) : Result A :=
  match o with
  | Some a => Ok a
  | None => Raise (AttributeError ("'NoneType' object has no attribute '" ++ attr ++ "'"))
  end.

(** [framework.get_type(t)] for a type the host reports. *)
Definition get_type (t : option NetType) : Result NetType :=
  match t with
  | Some t => Ok t
  | None => Raise (TypeError "expected type, got NoneType")
  end.

Definition determine_field_type (field : option ES_Field) : Result NetType :=
  f <- getattr field "ContainerType" ;;
  match FieldContainerType f with
  | Simple => get_type (Some (ValueType f))
  | Array =>
      value_type <- get_type (Some (ValueType f)) ;;
      Ok (IList value_type)
  | Map =>
      key_type <- get_type (KeyType f) ;;
      value_type <- get_type (Some (ValueType f)) ;;
      Ok (IDictionary key_type value_type)
  end.

Definition convert_to_generic (value : Value) : Result Value :=
  match value with
  | VList l | VTuple l | VSet l =>
      (* Determine the type of the elements from the first item *)
      first <- next_iter l ;;
      List_new (type_of first) l
  | VDict items =>
      (* Determine the types of keys and values from the first item *)
      first_key <- next_iter items.*1 ;;
      first_value <- next_iter items.*2 ;;
      Dictionary_new (type_of first_key) (type_of first_value) items
  | _ => Ok value
  end.


(** *** field_builder.py *)

(** [schema_builder.AddSimpleField], [AddArrayField], [AddMapField]: the
    host creates the field builder or rejects the call. *)
Definition AddField (sb : ES_SchemaBuilder) (field_name : string) (c : ContainerType)
    (kt : option NetType) (vt : NetType) : Result ES_FieldBuilder :=
  let fb := {| fb_name := field_name; fb_container := c; fb_value_type := vt;
               fb_key_type := kt; fb_documentation := PyNone; fb_spec := None;
               fb_sub_schema_guid := None |} in
  if AddField_accepts sb fb then Ok fb else Raise (HostError "Add field rejected").

Definition _add_field (schema_builder : ES_SchemaBuilder) (field_descriptor : FieldDescriptor)
  : Result ES_FieldBuilder :=
  match container_type field_descriptor with
  | Simple =>
      AddField schema_builder (name field_descriptor) Simple None
               (value_type field_descriptor)
  | Array =>
      AddField schema_builder (name field_descriptor) Array None
               (value_type field_descriptor)
  | Map =>
      match key_type field_descriptor with
      | PyNetType kt =>
          AddField schema_builder (name field_descriptor) Map (Some kt)
                   (value_type field_descriptor)
      | _ => Raise (TypeError "AddMapField: expected Type")
      end
  end.

Definition set_field_documentation (field_builder : ES_FieldBuilder) (doc : PyObj)
  : Result ES_FieldBuilder :=
  Ok {| fb_name := fb_name field_builder; fb_container := fb_container field_builder;
        fb_value_type := fb_value_type field_builder;
        fb_key_type := fb_key_type field_builder; fb_documentation := doc;
        fb_spec := fb_spec field_builder;
        fb_sub_schema_guid := fb_sub_schema_guid field_builder |}.

Definition set_field_spec_type_id (field_builder : ES_FieldBuilder)
    (spec_type_id_ : option ForgeTypeId) : Result ES_FieldBuilder :=
  if NeedsUnits field_builder then
    let spec := default SpecTypeId_Number spec_type_id_ in
    if SetSpec_accepts field_builder spec then
      Ok {| fb_name := fb_name field_builder; fb_container := fb_container field_builder;
            fb_value_type := fb_value_type field_builder;
            fb_key_type := fb_key_type field_builder;
            fb_documentation := fb_documentation field_builder;
            fb_spec := Some spec;
            fb_sub_schema_guid := fb_sub_schema_guid field_builder |}
    else Raise (HostError "SetSpec rejected")
  else Ok field_builder.

Definition set_sub_schema_guid (field_builder : ES_FieldBuilder) (sub_schema_guid_ : PyObj)
  : Result ES_FieldBuilder :=
  if NeedsSubSchemaGUID field_builder then
    match sub_schema_guid_ with
    | PyGuid g =>
        if SetSubSchemaGUID_accepts field_builder g then
          Ok {| fb_name := fb_name field_builder; fb_container := fb_container field_builder;
                fb_value_type := fb_value_type field_builder;
                fb_key_type := fb_key_type field_builder;
                fb_documentation := fb_documentation field_builder;
                fb_spec := fb_spec field_builder;
                fb_sub_schema_guid := Some g |}
        else Raise (HostError "SetSubSchemaGUID rejected")
    | _ => Raise (TypeError "SetSubSchemaGUID: expected Guid")
    end
  else Ok field_builder.

(** The schema builder with one more field: the field builder the host
    handed out at the [Add...Field] call, as configured since. *)
Definition with_field (sb : ES_SchemaBuilder) (fb : ES_FieldBuilder) : ES_SchemaBuilder :=
  {| sb_guid := sb_guid sb; sb_name := sb_name sb;
     sb_documentation := sb_documentation sb;
     sb_read_access := sb_read_access sb; sb_write_access := sb_write_access sb;
     sb_vendor_id := sb_vendor_id sb; sb_application_guid := sb_application_guid sb;
     sb_fields := sb_fields sb ++ [fb] |}.

Definition add_field (schema_builder : ES_SchemaBuilder) (field_descriptor : FieldDescriptor)
  : Result ES_SchemaBuilder :=
  if negb (AcceptableName (name field_descriptor)) then
    Raise (ValueError ("Invalid field name '" ++ name field_descriptor ++ "'"))
  else
    field_builder <- _add_field schema_builder field_descriptor ;;
    field_builder <- set_field_documentation field_builder (documentation field_descriptor) ;;
    field_builder <- set_field_spec_type_id field_builder (spec_type_id field_descriptor) ;;
    field_builder <- set_sub_schema_guid field_builder (sub_schema_guid field_descriptor) ;;
    Ok (with_field schema_builder field_builder).

(** *** schema_builder.py *)

(** A host call that needs a [Guid] argument. *)
Definition as_guid (o : PyObj) : Result Guid :=
  match o with
  | PyGuid g => Ok g
  | _ => Raise (TypeError "expected Guid")
  end.

Definition _create_schema_builder (guid : PyObj) : Result ES_SchemaBuilder :=
  g <- as_guid guid ;;
  if negb (GUIDIsValid g) then
    Raise (ValueError ("Invalid schema GUID '" ++ format_obj guid ++ "'"))
  else
    Ok {| sb_guid := g; sb_name := None; sb_documentation := PyNone;
          sb_read_access := Public; sb_write_access := Public;
          sb_vendor_id := None; sb_application_guid := None; sb_fields := [] |}.

Definition _set_schema_name (sb : ES_SchemaBuilder) (schema_name : PyObj)
  : Result ES_SchemaBuilder :=
  match schema_name with
  | PyStr n =>
      if negb (AcceptableName n) then
        Raise (ValueError ("Invalid schema name '" ++ n ++ "'"))
      else
        Ok {| sb_guid := sb_guid sb; sb_name := Some n;
              sb_documentation := sb_documentation sb;
              sb_read_access := sb_read_access sb; sb_write_access := sb_write_access sb;
              sb_vendor_id := sb_vendor_id sb;
              sb_application_guid := sb_application_guid sb; sb_fields := sb_fields sb |}
  | _ => Raise (TypeError "AcceptableName: expected str")
  end.

Definition _set_schema_documentation (sb : ES_SchemaBuilder) (doc : PyObj)
  : Result ES_SchemaBuilder :=
  Ok {| sb_guid := sb_guid sb; sb_name := sb_name sb; sb_documentation := doc;
        sb_read_access := sb_read_access sb; sb_write_access := sb_write_access sb;
        sb_vendor_id := sb_vendor_id sb;
        sb_application_guid := sb_application_guid sb; sb_fields := sb_fields sb |}.

Definition _set_access_levels (sb : ES_SchemaBuilder) (read_access write_access : PyObj)
  : Result ES_SchemaBuilder :=
  match read_access with
  | PyAccessLevel r =>
      match write_access with
      | PyAccessLevel w =>
          Ok {| sb_guid := sb_guid sb; sb_name := sb_name sb;
                sb_documentation := sb_documentation sb;
                sb_read_access := r; sb_write_access := w;
                sb_vendor_id := sb_vendor_id sb;
                sb_application_guid := sb_application_guid sb;
                sb_fields := sb_fields sb |}
      | _ => Raise (ValueError ("Invalid write access level '"
                                  ++ format_obj write_access ++ "'"))
      end
  | _ => Raise (ValueError ("Invalid read access level '" ++ format_obj read_access ++ "'"))
  end.

Definition _set_optional_properties (sb : ES_SchemaBuilder) (vendor_id app_guid : PyObj)
  : Result ES_SchemaBuilder :=
  sb <- match vendor_id with
        | PyNone => Ok sb
        | PyStr v =>
            if negb (VendorIdIsValid v) then
              Raise (ValueError ("Invalid Vendor ID '" ++ v ++ "'"))
            else
              Ok {| sb_guid := sb_guid sb; sb_name := sb_name sb;
                    sb_documentation := sb_documentation sb;
                    sb_read_access := sb_read_access sb;
                    sb_write_access := sb_write_access sb;
                    sb_vendor_id := Some v;
                    sb_application_guid := sb_application_guid sb;
                    sb_fields := sb_fields sb |}
        | _ => Raise (TypeError "VendorIdIsValid: expected str")
        end ;;
  match app_guid with
  | PyNone => Ok sb
  | _ =>
      g <- match app_guid with
           | PyStr a => System_Guid a
           | _ => as_guid app_guid
           end ;;
      if negb (GUIDIsValid g) then
        Raise (ValueError ("Invalid Application GUID '" ++ format_obj (PyGuid g) ++ "' "))
      else
        Ok {| sb_guid := sb_guid sb; sb_name := sb_name sb;
              sb_documentation := sb_documentation sb;
              sb_read_access := sb_read_access sb;
              sb_write_access := sb_write_access sb;
              sb_vendor_id := sb_vendor_id sb;
              sb_application_guid := Some g; sb_fields := sb_fields sb |}
  end.

Definition initialize_schema (guid schema_name doc : PyObj)
    (read_access write_access vendor_id app_guid : PyObj) : Result ES_SchemaBuilder :=
  schema_builder <- _create_schema_builder guid ;;
  schema_builder <- _set_schema_name schema_builder schema_name ;;
  schema_builder <- _set_schema_documentation schema_builder doc ;;
  schema_builder <- _set_access_levels schema_builder read_access write_access ;;
  schema_builder <- _set_optional_properties schema_builder vendor_id app_guid ;;
  Ok schema_builder.


(** *** schema.py *)

(** [ES.Schema.Lookup(guid)] *)
Definition Lookup (registry : list ES_Schema) (guid : Guid) : option ES_Schema :=
  List.find (fun s => bool_decide (GUID s = guid)) registry.

(** [schema_builder.Finish()]: the finished schema, as the builder was told. *)
Definition field_of_builder (fb : ES_FieldBuilder) : ES_Field :=
  {| FieldName := fb_name fb; FieldContainerType := fb_container fb;
     ValueType := fb_value_type fb; KeyType := fb_key_type fb;
     GetSpecTypeId := default "" (fb_spec fb);
     SubSchemaGUID := fb_sub_schema_guid fb;
     FieldDocumentation := fb_documentation fb |}.

Definition schema_of_builder (sb : ES_SchemaBuilder) : ES_Schema :=
  {| GUID := sb_guid sb; SchemaName := default "" (sb_name sb);
     Documentation := sb_documentation sb;
     ReadAccessLevel := sb_read_access sb; WriteAccessLevel := sb_write_access sb;
     VendorId := sb_vendor_id sb; ApplicationGUID := sb_application_guid sb;
     ListFields := field_of_builder <$> sb_fields sb |}.

(** [Finish] returns the schema and registers it with the host. *)
Definition Finish (registry : list ES_Schema) (sb : ES_SchemaBuilder)
  : Result (ES_Schema * list ES_Schema) :=
  if Finish_accepts registry sb then
    Ok (schema_of_builder sb, (registry ++ [schema_of_builder sb])%list)
  else Raise (HostError "Finish rejected").

(** [SchemaMeta._validate_guid(attrs.get("guid", None))] *)
Definition _validate_guid (guid : option Attr) : Result Attr :=
  match guid with
  | None => Raise (ValueError "Schema must have a GUID value")
  | Some (AttrObj o) =>
      if negb (truthy o) then Raise (ValueError "Schema must have a GUID value")
      else match o with
           | PyStr g => (g' <- System_Guid g ;; Ok (AttrObj (PyGuid g')))
           | _ => Ok (AttrObj o)
           end
  | Some (AttrField fd) => Ok (AttrField fd)
  end.

(** [SchemaMeta.__new__(cls, name, bases, attrs)]; [bases_mro] is the
    method resolution order of the bases. *)
Definition SchemaMeta_new (registry : list ES_Schema) (name_ : string)
    (bases_mro : list PyClass) (attrs : list (string * Attr)) : Result PyClass :=
  if bool_decide (name_ = "BaseSchema") then Ok (mkClass name_ attrs None bases_mro)
  else
    guid <- _validate_guid (dict_get attrs "guid") ;;
    let attrs := dict_set attrs "guid" guid in
    found <- match guid with
             | AttrObj o => (g <- as_guid o ;; Ok (Lookup registry g))
             | AttrField _ => Raise (TypeError "expected Guid")
             end ;;
    let attrs := dict_set attrs "schema_name" (AttrObj (PyStr name_)) in
    Ok (mkClass name_ attrs (Some found) bases_mro).

(** Class attribute lookup along the method resolution order.  A field
    descriptor found there is invoked, asks for [owner.get_field], hence for
    the schema being built, and the recursion never ends. *)
Fixpoint mro_lookup (classes : list PyClass) (attr : string) : option Attr :=
  match classes with
  | [] => None
  | c :: rest =>
      match dict_get (cls_dict c) attr with
      | Some a => Some a
      | None => mro_lookup rest attr
      end
  end.

(** [cls._schema], looked up like any class attribute. *)
Fixpoint mro_schema (classes : list PyClass) : option (option ES_Schema) :=
  match classes with
  | [] => None
  | c :: rest =>
      match _schema c with
      | Some entry => Some entry
      | None => mro_schema rest
      end
  end.

Definition class_getattr (cls : PyClass) (attr : string) : Result PyObj :=
  match mro_lookup (mro cls) attr with
  | Some (AttrObj o) => Ok o
  | Some (AttrField _) => Raise (RuntimeError "maximum recursion depth exceeded")
  | None => Raise (AttributeError ("type object has no attribute '" ++ attr ++ "'"))
  end.

(** The inner loop of [build_schema]:
    [for name, attr in base_cls.__dict__.items()] *)
Fixpoint add_fields_of_items (schema_builder : ES_SchemaBuilder)
    (items : list (string * Attr)) : Result ES_SchemaBuilder :=
  match items with
  | [] => Ok schema_builder
  | (_, AttrField attr) :: rest =>
      schema_builder <- add_field schema_builder attr ;;
      add_fields_of_items schema_builder rest
  | (_, AttrObj _) :: rest => add_fields_of_items schema_builder rest
  end.

(** The outer loop: [for base_cls in cls.mro()] *)
Fixpoint add_fields_of_classes (schema_builder : ES_SchemaBuilder)
    (classes : list PyClass) : Result ES_SchemaBuilder :=
  match classes with
  | [] => Ok schema_builder
  | base_cls :: rest =>
      schema_builder <- add_fields_of_items schema_builder (cls_dict base_cls) ;;
      add_fields_of_classes schema_builder rest
  end.

(** The schema builder [build_schema] hands to [Finish]. *)
Definition build_schema_builder (cls : PyClass) : Result ES_SchemaBuilder :=
  guid <- class_getattr cls "guid" ;;
  schema_name <- class_getattr cls "schema_name" ;;
  read_access <- class_getattr cls "read_access_level" ;;
  write_access <- class_getattr cls "write_access_level" ;;
  vendor_id <- class_getattr cls "vendor_id" ;;
  app_guid <- class_getattr cls "application_guid" ;;
  let doc := match dict_get (cls_dict cls) "__doc__" with
             | Some (AttrObj d) => d
             | _ => PyNone
             end in
  schema_builder <- initialize_schema guid schema_name doc read_access write_access
                                      vendor_id app_guid ;;
  add_fields_of_classes schema_builder (mro cls).

Definition build_schema (registry : list ES_Schema) (cls : PyClass)
  : Result (ES_Schema * list ES_Schema) :=
  schema_builder <- build_schema_builder cls ;;
  Finish registry schema_builder.

(** The [schema] property of a schema class: the result, the class with its
    [_schema] entry, and the host registry afterwards. *)
Definition SchemaMeta_schema (cls : PyClass) (registry : list ES_Schema)
  : Result ES_Schema * PyClass * list ES_Schema :=
  match mro_schema (mro cls) with
  | None => (Raise (AttributeError "type object has no attribute '_schema'"), cls, registry)
  | Some (Some s) => (Ok s, cls, registry)
  | Some None =>
      (* Build the schema if it doesn't exist *)
      match build_schema registry cls with
      | Ok (s, registry') => (Ok s, set_schema cls s, registry')
      | Raise e => (Raise e, cls, registry)
      end
  end.

Definition list_similar_schemas (registry : list ES_Schema) (schema : option ES_Schema)
  : Result (list ES_Schema) :=
  match registry with
  | [] => Ok []
  | _ =>
      schema <- getattr schema "SchemaName" ;;
      Ok (List.filter (fun s => bool_decide (SchemaName s = SchemaName schema)
                                && negb (bool_decide (GUID s = GUID schema)))
                      registry)
  end.


(** *** entity.py *)

Definition get_default_unit_type_id (field : option ES_Field) : Result ForgeTypeId :=
  f <- getattr field "GetSpecTypeId" ;;
  let spec_type_id_ := GetSpecTypeId f in
  if bool_decide (spec_type_id_ = SpecTypeId_Number) then Ok UnitTypeId_General
  else if IsMeasurableSpec spec_type_id_ then
    match GetValidUnits spec_type_id_ with
    | u :: _ => Ok u
    | [] => Raise IndexError
    end
  else
    (* Default to an empty unit type id *)
    Ok "".

(** The first lines of [get] and [set]:
    [if type(field) is str: field = self.schema.GetField(field)] and
    [if isinstance(field, Field): field = field.unwrap()] *)
Definition lookup_field (wrapped : ES_Entity) (field : FieldArg) : Result (option ES_Field) :=
  match field with
  | ArgName s =>
      schema <- getattr (Schema wrapped) "GetField" ;;
      Ok (GetField schema s)
  | ArgNone => Ok None
  | ArgField f => Ok (Some f)
  | ArgWrapper f => Ok (Some f)
  end.

(** A host call given a field object that may be null. *)
Definition host_field (field : option ES_Field) : Result (string + ES_Field) :=
  match field with
  | Some f => Ok (inr f)
  | None => Raise (HostError "ArgumentNullException")
  end.

(** [list(value)] and [dict(value)] on what the host returns. *)
Definition py_list (value : Value) : Result Value :=
  match value with
  | VNetList _ l | VList l | VTuple l | VSet l => Ok (VList l)
  | VDict items | VNetDict _ _ items => Ok (VList items.*1)
  | _ => Raise (TypeError "object is not iterable")
  end.

Definition py_dict (value : Value) : Result Value :=
  match value with
  | VNetDict _ _ items | VDict items => Ok (VDict items)
  | _ => Raise (TypeError "cannot convert dictionary update sequence")
  end.

(** [Entity.get(self, field, unit_type_id=None)] on the wrapped entity. *)
Definition Entity_get (wrapped : ES_Entity) (field : FieldArg)
    (unit_type_id : option ForgeTypeId) : Result Value :=
  field <- lookup_field wrapped field ;;
  unit_type_id <- match unit_type_id with
                  | None => get_default_unit_type_id field
                  | Some u => Ok u
                  end ;;
  data_type <- determine_field_type field ;;
  f <- host_field field ;;
  value <- Entity_Get wrapped data_type f unit_type_id ;;
  match FieldContainerType <$> field with
  | Some Array => py_list value
  | Some Map => py_dict value
  | _ =>
      match value with
      | VHostEntity h => Ok (VEntity h)
      | _ => Ok value
      end
  end.

(** [Entity.set(self, field, value, unit_type_id=None)]: the wrapped entity
    afterwards. *)
Definition Entity_set (wrapped : ES_Entity) (field : FieldArg) (value : Value)
    (unit_type_id : option ForgeTypeId) : Result ES_Entity :=
  field <- lookup_field wrapped field ;;
  unit_type_id <- match unit_type_id with
                  | None => get_default_unit_type_id field
                  | Some u => Ok u
                  end ;;
  data_type <- determine_field_type field ;;
  value <- convert_to_generic value ;;
  let value := match value with VEntity h => VHostEntity h | _ => value end in
  f <- host_field field ;;
  match Entity_Set wrapped (Some data_type) f value unit_type_id with
  | Raise (TypeError _) =>
      Raise (TypeError ("Invalid type for field '"
                          ++ from_option FieldName "" field ++ "'"))
  | r => r
  end.

(** [Entity.clear(self, field)] *)
Definition Entity_clear (wrapped : ES_Entity) (field : FieldArg) : Result ES_Entity :=
  match field with
  | ArgName s => Entity_Clear wrapped (inl s)
  | ArgField f | ArgWrapper f => Entity_Clear wrapped (inr f)
  | ArgNone => Raise (HostError "ArgumentNullException")
  end.

(** The loop of [transfer_field_data] over the fields of the new schema;
    [to_entity] is updated in place, so it is returned on every path. *)
Fixpoint transfer_fields (from_entity : ES_Entity) (fields : list ES_Field)
    (to_entity : ES_Entity) : Result unit * ES_Entity :=
  match fields with
  | [] => (Ok (), to_entity)
  | field :: rest =>
      match getattr (Schema from_entity) "GetField" with
      | Raise e => (Raise e, to_entity)
      | Ok old_schema =>
          match GetField old_schema (FieldName field) with
          | None => transfer_fields from_entity rest to_entity
          | Some old_field =>
              match determine_field_type (Some field) with
              | Raise e => (Raise e, to_entity)
              | Ok field_data_type =>
                  if negb (bool_decide (field_data_type = ValueType old_field)) then
                    (* Field data types do not match *)
                    transfer_fields from_entity rest to_entity
                  else
                    match
                      (unit_type_id <- get_default_unit_type_id (Some field) ;;
                       old_value <- Entity_Get from_entity field_data_type
                                               (inl (FieldName field)) unit_type_id ;;
                       Entity_Set to_entity None (inl (FieldName field)) old_value
                                  unit_type_id)
                    with
                    | Raise e => (Raise e, to_entity)
                    | Ok to_entity => transfer_fields from_entity rest to_entity
                    end
              end
          end
      end
  end.

Definition transfer_field_data (from_entity to_entity : ES_Entity)
  : Result unit * ES_Entity :=
  match getattr (Schema to_entity) "ListFields" with
  | Raise e => (Raise e, to_entity)
  | Ok schema => transfer_fields from_entity (ListFields schema) to_entity
  end.

(** *** __init__.py *)

(** [element.GetEntity(schema)]: the stored entity, or an invalid one. *)
Definition GetEntity (element : Element) (schema : ES_Schema) : ES_Entity :=
  default {| Schema := None; stored := ∅ |} (entities element !! GUID schema).

(** [element.SetEntity(entity)] *)
Definition SetEntity (element : Element) (entity : ES_Entity) : Result Element :=
  match Schema entity with
  | None => Raise (HostError "SetEntity: invalid entity")
  | Some schema =>
      if SetEntity_accepts element entity then
        Ok {| Name := Name element;
              entities := <[GUID schema := entity]> (entities element) |}
      else Raise (HostError "SetEntity rejected")
  end.

(** [element.DeleteEntity(schema)] *)
Definition DeleteEntity (element : Element) (schema : ES_Schema) : Element :=
  {| Name := Name element; entities := delete (GUID schema) (entities element) |}.

(** [with revit.Transaction(name, doc): body]: committed when the body
    returns, rolled back when it raises. *)
Definition Transaction (element : Element) (body : Element -> Result Element)
  : Result unit * Element :=
  match body element with
  | Ok element' => (Ok (), element')
  | Raise e => (Raise e, element)
  end.

(** The loop of [update_schema_entities] over the similar schemas; the
    element and the new entity are both updated in place. *)
Fixpoint update_from_schemas (schemas : list ES_Schema) (element : Element)
    (entity : ES_Entity) (remove_old : bool) : Result unit * Element * ES_Entity :=
  match schemas with
  | [] => (Ok (), element, entity)
  | schema :: rest =>
      let old_entity := GetEntity element schema in
      match Schema old_entity with
      | None =>
          (* not old_entity.IsValid() *)
          update_from_schemas rest element entity remove_old
      | Some old_schema =>
          match transfer_field_data old_entity entity with
          | (Raise e, entity) => (Raise e, element, entity)
          | (Ok _, entity) =>
              if remove_old then
                match
                  Transaction element (fun element => Ok (DeleteEntity element old_schema))
                with
                | (Raise e, element) => (Raise e, element, entity)
                | (Ok _, element) => update_from_schemas rest element entity remove_old
                end
              else update_from_schemas rest element entity remove_old
          end
      end
  end.

Definition update_schema_entities (registry : list ES_Schema) (element : Element)
    (entity : ES_Entity) (remove_old : bool) : Result unit * Element * ES_Entity :=
  match list_similar_schemas registry (Schema entity) with
  | Raise e => (Raise e, element, entity)
  | Ok schemas => update_from_schemas schemas element entity remove_old
  end.

(** A [BaseSchema] instance: the element it was opened on, the [update]
    flag and the wrapped entity. *)
Record BaseSchema := {
  element : Element;
  update : bool;
  _wrapped : ES_Entity;
}.

(** [BaseSchema.__init__(self, element, update)] for a schema class. *)
Definition BaseSchema_init (cls : PyClass) (registry : list ES_Schema)
    (element_ : Element) (update_ : bool)
  : Result BaseSchema * PyClass * list ES_Schema :=
  match SchemaMeta_schema cls registry with
  | (Raise e, cls, registry) => (Raise e, cls, registry)
  | (Ok schema, cls, registry) =>
      let entity := GetEntity element_ schema in
      let entity := if negb (IsValid entity)
                    then {| Schema := Some schema; stored := ∅ |}
                    else entity in
      (Ok {| element := element_; update := update_; _wrapped := entity |},
       cls, registry)
  end.

Definition BaseSchema_enter (registry : list ES_Schema) (self : BaseSchema)
  : Result unit * BaseSchema :=
  if update self then
    match update_schema_entities registry (element self) (_wrapped self) true with
    | (r, element_, wrapped) =>
        (r, {| element := element_; update := update self; _wrapped := wrapped |})
    end
  else (Ok (), self).

(** [BaseSchema.__exit__(self, exc_type, exc_val, exc_tb)]; [exc] is the
    exception the body of the scope raised, if any.  Returns [None]. *)
Definition BaseSchema_exit (self : BaseSchema) (exc : option PyExc)
  : Result unit * BaseSchema :=
  match Transaction (element self) (fun element => SetEntity element (_wrapped self)) with
  | (r, element_) =>
      (r, {| element := element_; update := update self; _wrapped := _wrapped self |})
  end.

(** [with BaseSchema(element) as s: body(s)], as Python runs a [with]
    statement: [__exit__] is called on both exits of the body, and since it
    returns [None] an exception of the body is raised again. *)
Definition with_BaseSchema (registry : list ES_Schema) (self : BaseSchema)
    (body : BaseSchema -> Result unit * BaseSchema) : Result unit * BaseSchema :=
  match BaseSchema_enter registry self with
  | (Raise e, self) => (Raise e, self)
  | (Ok _, self) =>
      match body self with
      | (Ok _, self) => BaseSchema_exit self None
      | (Raise e, self) =>
          match BaseSchema_exit self (Some e) with
          | (Raise e', self) => (Raise e', self)
          | (Ok _, self) => (Raise e, self)
          end
      end
  end.

End Library.

(** ** A reference host

    A small in-memory host on which the library can be run: names must be
    non-empty, field names unique within a schema, schema GUIDs unique in
    the registry, and an entity checks the requested type of a field against
    its declaration. *)

Definition demo_declared_type (f : ES_Field) : NetType :=
  match FieldContainerType f with
  | Simple => ValueType f
  | Array => IList (ValueType f)
  | Map => IDictionary (default (OtherType "null") (KeyType f)) (ValueType f)
  end.

Definition demo_interface (t : NetType) : NetType :=
  match t with
  | List_ t => IList t
  | Dictionary k v => IDictionary k v
  | _ => t
  end.

Definition demo_field_name (key : string + ES_Field) : string :=
  match key with inl s => s | inr f => FieldName f end.

Definition demo_field (e : ES_Entity) (key : string + ES_Field) : Result ES_Field :=
  match Schema e with
  | None => Raise (HostError "invalid entity")
  | Some s =>
      match GetField s (demo_field_name key) with
      | Some f => Ok f
      | None => Raise (HostError "field not in schema")
      end
  end.

Definition demo_default (f : ES_Field) : Value :=
  match FieldContainerType f with
  | Simple => VNone
  | Array => VNetList (ValueType f) []
  | Map => VNetDict (default (OtherType "null") (KeyType f)) (ValueType f) []
  end.

Definition demo_Get (e : ES_Entity) (t : NetType) (key : string + ES_Field)
    (u : ForgeTypeId) : Result Value :=
  f <- demo_field e key ;;
  if bool_decide (t = demo_declared_type f)
  then Ok (default (demo_default f) (stored e !! FieldName f))
  else Raise (HostError "requested type does not match the field").

Definition demo_Set (e : ES_Entity) (t : option NetType) (key : string + ES_Field)
    (v : Value) (u : ForgeTypeId) : Result ES_Entity :=
  f <- demo_field e key ;;
  if bool_decide (default (demo_interface (type_of v)) t = demo_declared_type f)
  then
    if bool_decide (demo_interface (type_of v) = demo_declared_type f)
    then Ok {| Schema := Schema e; stored := <[FieldName f := v]> (stored e) |}
    else Raise (TypeError "value does not have the requested type")
  else Raise (HostError "requested type does not match the field").

Definition demo_Clear (e : ES_Entity) (key : string + ES_Field) : Result ES_Entity :=
  f <- demo_field e key ;;
  Ok {| Schema := Schema e; stored := delete (FieldName f) (stored e) |}.

Definition demo_host : Host := {|
  Guid_parse := fun s =>
    if bool_decide (s = "G1") then Some 1%N
    else if bool_decide (s = "G2") then Some 2%N
    else if bool_decide (s = "G3") then Some 3%N
    else None;
  List_new := fun t l =>
    if forallb (fun x => bool_decide (type_of x = t)) l then Ok (VNetList t l)
    else Raise (TypeError "expected homogeneous elements");
  Dictionary_new := fun k v items =>
    if forallb (fun kv => bool_decide (type_of kv.1 = k) && bool_decide (type_of kv.2 = v))
               items
    then Ok (VNetDict k v items)
    else Raise (TypeError "expected homogeneous items");
  GUIDIsValid := fun g => negb (bool_decide (g = 0%N));
  AcceptableName := fun n => negb (bool_decide (n = ""));
  VendorIdIsValid := fun v => (4 <=? String.length v)%nat;
  AddField_accepts := fun sb fb =>
    negb (bool_decide (fb_name fb ∈ fb_name <$> sb_fields sb));
  Finish_accepts := fun registry sb =>
    negb (bool_decide (sb_guid sb ∈ GUID <$> registry));
  NeedsUnits := fun fb =>
    bool_decide (fb_value_type fb ∈ [Double; Single; XYZ; UV]);
  NeedsSubSchemaGUID := fun fb => bool_decide (fb_value_type fb = EntityType);
  SetSpec_accepts := fun _ _ => true;
  SetSubSchemaGUID_accepts := fun _ _ => true;
  SpecTypeId_Number := "autodesk.spec:spec.number";
  UnitTypeId_General := "autodesk.unit.unit:general";
  IsMeasurableSpec := fun s => bool_decide (s = "autodesk.spec.aec:length");
  GetValidUnits := fun s =>
    if bool_decide (s = "autodesk.spec.aec:length")
    then ["autodesk.unit.unit:meters"; "autodesk.unit.unit:feet"] else [];
  Entity_Get := demo_Get;
  Entity_Set := demo_Set;
  Entity_Clear := demo_Clear;
  SetEntity_accepts := fun _ _ => true;
|}.

(** ** Sample declarations *)

(** The empty Python collections [[]], [()], [set()] and [{}]. *)
Definition empty_python_container (value : Value) : bool :=
  match value with
  | VList [] | VTuple [] | VSet [] | VDict [] => true
  | _ => false
  end.

(** The exceptions the library raises itself ([raise ValueError(...)],
    [TypeError(...)]); everything else comes from the interpreter or the
    host. *)
Definition raised_by_library (e : PyExc) : bool :=
  match e with
  | ValueError _ | TypeError _ => true
  | _ => false
  end.

Definition sample_field (n : string) (c : ContainerType) (vt : NetType)
    (kt : option NetType) : ES_Field :=
  {| FieldName := n; FieldContainerType := c; ValueType := vt; KeyType := kt;
     GetSpecTypeId := ""; SubSchemaGUID := None; FieldDocumentation := PyNone |}.

Definition sample_schema (g : Guid) (n : string) (fields : list ES_Field) : ES_Schema :=
  {| GUID := g; SchemaName := n; Documentation := PyNone;
     ReadAccessLevel := Public; WriteAccessLevel := Public;
     VendorId := None; ApplicationGUID := None; ListFields := fields |}.

Definition metadata_v1 : ES_Schema :=
  sample_schema 1%N "Metadata" [sample_field "count" Simple Int32 None;
                                sample_field "tags" Array String_ None].

Definition sample_entity : ES_Entity :=
  {| Schema := Some metadata_v1; stored := ∅ |}.

(** The class [BaseSchema] itself, with the defaults of its body. *)
Definition BaseSchema_class : PyClass :=
  mkClass "BaseSchema"
          [ ("guid", AttrObj PyNone); ("schema_name", AttrObj PyNone);
            ("vendor_id", AttrObj PyNone); ("application_guid", AttrObj PyNone);
            ("read_access_level", AttrObj (PyAccessLevel Public));
            ("write_access_level", AttrObj (PyAccessLevel Public)) ]
          None [].

(** The field descriptors among the items of a class dictionary, and those
    of a class and its bases in method resolution order. *)
Definition field_descriptors (items : list (string * Attr)) : list FieldDescriptor :=
  omap (fun item => match item.2 with AttrField fd => Some fd | AttrObj _ => None end) items.

Definition descriptors_in_mro_order (cls : PyClass) : list FieldDescriptor :=
  mro cls ≫= (fun base_cls => field_descriptors (cls_dict base_cls)).

(** A field builder configured from a descriptor. *)
Definition built_from (fb : ES_FieldBuilder) (fd : FieldDescriptor) : Prop :=
  fb_name fb = name fd ∧ fb_container fb = container_type fd
  ∧ fb_value_type fb = value_type fd ∧ fb_documentation fb = documentation fd.

(** The [schema] property read [n] times in a row, whatever each read
    returns. *)
Fixpoint request_schema `{Host} (n : nat) (cls : PyClass) (registry : list ES_Schema)
  : list (Result ES_Schema) * PyClass * list ES_Schema :=
  match n with
  | O => ([], cls, registry)
  | S n =>
      match SchemaMeta_schema cls registry with
      | (r, cls, registry) =>
          match request_schema n cls registry with
          | (rs, cls, registry) => (r :: rs, cls, registry)
          end
      end
  end.

(** How many of these [n] reads reach the call of [build_schema]: those
    that find the [_schema] entry empty. *)
Fixpoint build_calls `{Host} (n : nat) (cls : PyClass) (registry : list ES_Schema) : nat :=
  match n with
  | O => O
  | S n =>
      match SchemaMeta_schema cls registry with
      | (_, cls', registry') =>
          (match mro_schema (mro cls) with Some None => 1 | _ => 0 end
           + build_calls n cls' registry')%nat
      end
  end.

Definition int32_field (n : string) : FieldDescriptor :=
  {| name := n; documentation := PyNone; container_type := Simple;
     value_type := Int32; key_type := PyNone; spec_type_id := None;
     sub_schema_guid := PyNone |}.

(** [class Base(BaseSchema): guid = G1; a = simple_field("int32")] and
    [class Derived(Base): guid = G2; b = simple_field("int32")]. *)
Definition sample_Base : PyClass :=
  mkClass "Base"
          [ ("guid", AttrObj (PyGuid 1%N)); ("a", AttrField (int32_field "a"));
            ("schema_name", AttrObj (PyStr "Base")) ]
          (Some None) [BaseSchema_class].

Definition sample_Derived : PyClass :=
  mkClass "Derived"
          [ ("guid", AttrObj (PyGuid 2%N)); ("b", AttrField (int32_field "b"));
            ("schema_name", AttrObj (PyStr "Derived")) ]
          (Some None) [sample_Base; BaseSchema_class].


(** Two revisions of a schema named [Metadata]: both declare the array
    field [tags] of strings; the old one stores [count] as an array of
    integers, the new one as a single integer. *)
Definition Metadata_old : ES_Schema :=
  sample_schema 1%N "Metadata" [sample_field "tags" Array String_ None].

Definition Metadata_new : ES_Schema :=
  sample_schema 2%N "Metadata" [sample_field "tags" Array String_ None].

Definition old_tags_entity : ES_Entity :=
  {| Schema := Some Metadata_old;
     stored := {[ "tags" := VNetList String_ [VStr "wall"; VStr "exterior"] ]} |}.

Definition new_tags_entity : ES_Entity :=
  {| Schema := Some Metadata_new; stored := ∅ |}.

Definition Counters_old : ES_Schema :=
  sample_schema 3%N "Counters" [sample_field "count" Array Int32 None].

Definition Counters_new : ES_Schema :=
  sample_schema 4%N "Counters" [sample_field "count" Simple Int32 None].

Definition old_count_entity : ES_Entity :=
  {| Schema := Some Counters_old;
     stored := {[ "count" := VNetList Int32 [VInt 1; VInt 2] ]} |}.

Definition new_count_entity : ES_Entity :=
  {| Schema := Some Counters_new; stored := ∅ |}.

(** An element stores each entity under the GUID of the entity's schema. *)
Definition element_wf (element : Element) : Prop :=
  ∀ k e s, entities element !! k = Some e → Schema e = Some s → GUID s = k.

Definition wall : Element :=
  {| Name := "Wall"; entities := {[ 3%N := old_count_entity ]} |}.

(** A scope opened on an element without entities, and a body that sets
    [tags] and then raises. *)
Definition bare_wall : Element := {| Name := "Wall"; entities := ∅ |}.

Definition tags_scope : BaseSchema :=
  {| element := bare_wall; update := true; _wrapped := new_tags_entity |}.

Definition interrupted_body `{Host} (self : BaseSchema) : Result unit * BaseSchema :=
  match Entity_set (_wrapped self) (ArgName "tags") (VList [VStr "draft"]) None with
  | Ok wrapped =>
      (Raise (ValueError "interrupted"),
       {| element := element self; update := update self; _wrapped := wrapped |})
  | Raise e => (Raise e, self)
  end.

(** ** The rest of the library's surface *)

(** What [FieldDescriptor.__get__] returns: the [Field] wrapper around the
    host field (class access) or the field's value (instance access). *)
Inductive DescriptorResult :=
| FieldWrapper (field : option ES_Field)
| FieldValue (value : Value).

Section Surface.
Context `{Host}.

(** [simple_field], [array_field] and [map_field] of [__init__.py], applied
    to the decorated function's name and docstring. *)
Definition simple_field (value_type_ spec_type_id_ guid_ : PyObj)
    (func_name : string) (func_doc : PyObj) : Result FieldDescriptor :=
  schema_field (PyContainerType Simple) value_type_ PyNone spec_type_id_ guid_
               func_name func_doc.

Definition array_field (value_type_ spec_type_id_ guid_ : PyObj)
    (func_name : string) (func_doc : PyObj) : Result FieldDescriptor :=
  schema_field (PyContainerType Array) value_type_ PyNone spec_type_id_ guid_
               func_name func_doc.

Definition map_field (key_type_ value_type_ spec_type_id_ guid_ : PyObj)
    (func_name : string) (func_doc : PyObj) : Result FieldDescriptor :=
  schema_field (PyContainerType Map) value_type_ key_type_ spec_type_id_ guid_
               func_name func_doc.

(** [SchemaMeta.get_field(cls, name)]: [cls.schema.GetField(name)] *)
Definition SchemaMeta_get_field (cls : PyClass) (registry : list ES_Schema)
    (name_ : string) : Result (option ES_Field) * PyClass * list ES_Schema :=
  match SchemaMeta_schema cls registry with
  | (Ok schema, cls, registry) => (Ok (GetField schema name_), cls, registry)
  | (Raise e, cls, registry) => (Raise e, cls, registry)
  end.

(** [SchemaMeta.list_fields]: [list(cls.schema.ListFields())] *)
Definition SchemaMeta_list_fields (cls : PyClass) (registry : list ES_Schema)
  : Result (list ES_Field) * PyClass * list ES_Schema :=
  match SchemaMeta_schema cls registry with
  | (Ok schema, cls, registry) => (Ok (ListFields schema), cls, registry)
  | (Raise e, cls, registry) => (Raise e, cls, registry)
  end.

(** [FieldDescriptor.__get__(self, instance, owner)]; [instance] is the
    entity the instance wraps, [None] for access on the class. *)
Definition FieldDescriptor_get (self : FieldDescriptor) (instance : option ES_Entity)
    (owner : PyClass) (registry : list ES_Schema)
  : Result DescriptorResult * PyClass * list ES_Schema :=
  match SchemaMeta_get_field owner registry (name self) with
  | (Raise e, owner, registry) => (Raise e, owner, registry)
  | (Ok field, owner, registry) =>
      match instance with
      | None => (Ok (FieldWrapper field), owner, registry)
      | Some wrapped =>
          (value <- Entity_get wrapped
                               (match field with
                                | Some f => ArgField f
                                | None => ArgNone
                                end) None ;;
           Ok (FieldValue value),
           owner, registry)
      end
  end.

(** [FieldDescriptor.__set__(self, instance, value)] *)
Definition FieldDescriptor_set (self : FieldDescriptor) (instance : ES_Entity)
    (value : Value) : Result ES_Entity :=
  Entity_set instance (ArgName (name self)) value None.

End Surface.

(** More sample data. *)
Definition Metadata_class : PyClass :=
  mkClass "Metadata"
          [ ("guid", AttrObj (PyGuid 2%N)); ("schema_name", AttrObj (PyStr "Metadata")) ]
          (Some (Some Metadata_new)) [BaseSchema_class].

Definition tagged_entity : ES_Entity :=
  {| Schema := Some Metadata_new;
     stored := {[ "tags" := VNetList String_ [VStr "draft"] ]} |}.

Definition Other_schema : ES_Schema :=
  sample_schema 9%N "Other" [sample_field "tags" Array String_ None].

Definition length_field : ES_Field :=
  {| FieldName := "length"; FieldContainerType := Simple; ValueType := Double;
     KeyType := None; GetSpecTypeId := "autodesk.spec.aec:area";
     SubSchemaGUID := None; FieldDocumentation := PyNone |}.

(** The schema-level settings of a builder, and the rule for the key type
    of a field builder: present for a [Map], absent otherwise. *)
Definition builder_settings (sb : ES_SchemaBuilder) :=
  (sb_guid sb, sb_name sb, sb_documentation sb, sb_read_access sb,
   sb_write_access sb, sb_vendor_id sb, sb_application_guid sb).

Definition keyed_iff_map (fb : ES_FieldBuilder) : Prop :=
  (fb_container fb = Map → is_Some (fb_key_type fb))
  ∧ (fb_container fb ≠ Map → fb_key_type fb = None).

Definition Counters_text : ES_Schema :=
  sample_schema 5%N "Counters" [sample_field "count" Simple String_ None;
                                sample_field "note" Simple String_ None].

Definition text_count_entity : ES_Entity :=
  {| Schema := Some Counters_text; stored := ∅ |}.

Definition tagged_wall : Element :=
  {| Name := "Wall"; entities := {[ 1%N := old_tags_entity ]} |}.

(** [class Tagged(BaseSchema): guid = G3; vendor_id = "AB"], a vendor id
    the reference host finds too short. *)
Definition sample_Tagged : PyClass :=
  mkClass "Tagged"
          [ ("guid", AttrObj (PyGuid 3%N)); ("vendor_id", AttrObj (PyStr "AB"));
            ("schema_name", AttrObj (PyStr "Tagged")) ]
          (Some None) [BaseSchema_class].

(** [labels = map_field("string", "int32")] *)
Definition labels_field : FieldDescriptor :=
  {| name := "labels"; documentation := PyNone; container_type := Map;
     value_type := Int32; key_type := PyNetType String_; spec_type_id := None;
     sub_schema_guid := PyNone |}.

(** * Properties *)

Section FieldDeclaration.
Context `{Host}.

Lemma resolve_type_value_entity_name :
  resolve_type (PyStr "entity") ALLOWED_VALUE_TYPES = Ok EntityType.
Proof. reflexivity. Qed.

(** C8, at the failing input: resolving the builtin [float] against the
    allowed key types returns [System.Double], although [Double] is not one
    of the allowed key types. *)
Theorem resolve_type_float_as_key_type :
  resolve_type (PyBuiltin py_float) ALLOWED_KEY_TYPES = Ok Double
  ∧ (Double ∉ ALLOWED_KEY_TYPES.*2)
  ∧ dict_get ALLOWED_KEY_TYPES "double" = None.
Proof.
  split; [reflexivity|]. split; [|reflexivity].
  intros Hin. apply list_elem_of_In in Hin. simpl in Hin.
  repeat (destruct Hin as [Hin|Hin]; [discriminate Hin|]). exact Hin.
Qed.

(** The key type check of the constructor only runs for [Map]. *)
Lemma FieldDescriptor_init_not_map n c vt kt doc spec guid fd :
  c ≠ Map →
  FieldDescriptor_init n (PyContainerType c) vt kt doc spec guid = Ok fd →
  key_type fd = kt.
Proof.
  intros Hc. unfold FieldDescriptor_init. simpl.
  rewrite bool_decide_eq_false_2 by done.
  destruct (resolve_type vt ALLOWED_VALUE_TYPES) as [t|e]; simpl; [|discriminate].
  destruct spec; simpl; try discriminate;
    destruct (bool_decide (vt = PyNetType EntityType));
    try destruct (negb (truthy guid)); simpl; try discriminate;
    destruct guid; simpl; try discriminate;
    try (destruct (System_Guid _); simpl; try discriminate);
    intros [= <-]; reflexivity.
Qed.

Lemma FieldDescriptor_init_key_ignored n c vt kt doc spec guid :
  c ≠ Map →
  is_ok (FieldDescriptor_init n (PyContainerType c) vt kt doc spec guid)
  = is_ok (FieldDescriptor_init n (PyContainerType c) vt PyNone doc spec guid).
Proof.
  intros Hc. unfold FieldDescriptor_init. simpl.
  rewrite bool_decide_eq_false_2 by done.
  destruct (resolve_type vt ALLOWED_VALUE_TYPES) as [t|e]; simpl; [|reflexivity].
  destruct spec; simpl; try reflexivity;
    destruct (bool_decide (vt = PyNetType EntityType));
    try destruct (negb (truthy guid)); simpl; try reflexivity;
    destruct guid; simpl; try reflexivity;
    destruct (System_Guid _); reflexivity.
Qed.

Lemma FieldDescriptor_init_map_without_key n vt doc spec guid :
  FieldDescriptor_init n (PyContainerType Map) vt PyNone doc spec guid
  = match resolve_type vt ALLOWED_VALUE_TYPES with
    | Ok _ => Raise (ValueError "Missing key type for Map field")
    | Raise e => Raise e
    end.
Proof.
  unfold FieldDescriptor_init. simpl.
  destruct (resolve_type vt ALLOWED_VALUE_TYPES); reflexivity.
Qed.

(** C5, as amended: a [Map] declaration without a key type always fails in
    the constructor, with the missing-key-type error once the value type
    resolves; for [Simple] and [Array] a supplied key type is not rejected:
    the declaration succeeds or fails as it does without one, and the object
    is kept as it was given. *)
Theorem key_type_checked_for_map_only n c vt kt doc spec guid :
  c ≠ Map →
  is_ok (FieldDescriptor_init n (PyContainerType Map) vt PyNone doc spec guid) = false
  ∧ (is_ok (resolve_type vt ALLOWED_VALUE_TYPES) = true →
     FieldDescriptor_init n (PyContainerType Map) vt PyNone doc spec guid
     = Raise (ValueError "Missing key type for Map field"))
  ∧ is_ok (FieldDescriptor_init n (PyContainerType c) vt kt doc spec guid)
    = is_ok (FieldDescriptor_init n (PyContainerType c) vt PyNone doc spec guid)
  ∧ (∀ fd, FieldDescriptor_init n (PyContainerType c) vt kt doc spec guid = Ok fd →
           key_type fd = kt).
Proof.
  intros Hc. rewrite FieldDescriptor_init_map_without_key.
  split; [|split; [|split]].
  - destruct (resolve_type vt ALLOWED_VALUE_TYPES); reflexivity.
  - destruct (resolve_type vt ALLOWED_VALUE_TYPES); [reflexivity|discriminate].
  - apply FieldDescriptor_init_key_ignored, Hc.
  - intros fd. apply FieldDescriptor_init_not_map, Hc.
Qed.

(** C9, at the failing input: a field whose value type is given by the name
    ["entity"] is declared without a sub-schema GUID and the constructor
    accepts it, the value type resolved to the entity type; the same
    declaration with the type object [ES.Entity] is refused. *)
Theorem entity_by_name_skips_sub_schema_check n doc :
  FieldDescriptor_init n (PyContainerType Simple) (PyStr "entity") PyNone doc PyNone PyNone
  = Ok {| name := n; documentation := doc; container_type := Simple;
          value_type := EntityType; key_type := PyNone; spec_type_id := None;
          sub_schema_guid := PyNone |}
  ∧ FieldDescriptor_init n (PyContainerType Simple) (PyNetType EntityType) PyNone doc
                         PyNone PyNone
    = Raise (ValueError "A valid sub schema GUID must be provided").
Proof. split; reflexivity. Qed.

End FieldDeclaration.

(** C5, as stated, fails: a [Simple] field declared with a key type is
    accepted. *)
Lemma simple_field_with_key_type_accepted :
  @FieldDescriptor_init demo_host "count" (PyContainerType Simple) (PyStr "int32")
                        (PyStr "string") PyNone PyNone PyNone
  = Ok {| name := "count"; documentation := PyNone; container_type := Simple;
          value_type := Int32; key_type := PyStr "string"; spec_type_id := None;
          sub_schema_guid := PyNone |}.
Proof. reflexivity. Qed.

Lemma key_type_checked_for_map_only_witness :
  @FieldDescriptor_init demo_host "lookup" (PyContainerType Map) (PyStr "int32")
                        PyNone PyNone PyNone PyNone
  = Raise (ValueError "Missing key type for Map field").
Proof.
  refine (proj1 (proj2 (@key_type_checked_for_map_only demo_host "lookup" Array
                          (PyStr "int32") (PyStr "string") PyNone PyNone PyNone _)) _).
  - discriminate.
  - reflexivity.
Defined.

Section EntityAccess.
Context `{Host}.

Lemma convert_to_generic_empty value :
  empty_python_container value = true → convert_to_generic value = Raise StopIteration.
Proof.
  destruct value as [| | | | | | | | |l|l|l|items| |]; try discriminate;
    (destruct l || destruct items); try discriminate; reflexivity.
Qed.

(** C10: [set] with an empty list, tuple, set or dict never succeeds; the
    conversion asks the empty collection for its first element, and once
    the field, its unit and its type are resolved the exception of the call
    is [StopIteration]. *)
Theorem set_empty_collection_never_succeeds wrapped field value unit_type_id :
  empty_python_container value = true →
  convert_to_generic value = Raise StopIteration
  ∧ is_ok (Entity_set wrapped field value unit_type_id) = false
  ∧ (∀ f u data_type,
       lookup_field wrapped field = Ok (Some f) →
       match unit_type_id with
       | None => get_default_unit_type_id (Some f)
       | Some u => Ok u
       end = Ok u →
       determine_field_type (Some f) = Ok data_type →
       Entity_set wrapped field value unit_type_id = Raise StopIteration).
Proof.
  intros Hempty. pose proof (convert_to_generic_empty _ Hempty) as Hconv.
  split; [exact Hconv|]. unfold Entity_set. split.
  - destruct (lookup_field wrapped field) as [fo|]; simpl; [|reflexivity].
    destruct (match unit_type_id with
              | None => get_default_unit_type_id fo | Some u => Ok u end);
      simpl; [|reflexivity].
    destruct (determine_field_type fo); simpl; [|reflexivity].
    rewrite Hconv. reflexivity.
  - intros f u data_type -> Hunit Htype. simpl.
    rewrite Hunit. simpl. rewrite Htype. simpl. rewrite Hconv. reflexivity.
Qed.

Lemma lookup_field_undeclared wrapped schema n :
  Schema wrapped = Some schema → GetField schema n = None →
  lookup_field wrapped (ArgName n) = Ok None.
Proof. intros Hs Hf. unfold lookup_field. rewrite Hs. simpl. rewrite Hf. reflexivity. Qed.

(** C7, as amended: with a name the bound schema does not declare, [get]
    and [set] fail with the interpreter's [AttributeError], raised where the
    missing field ([None]) is first used (its spec type when no unit is
    given, its container type otherwise); [clear] does not look the name up
    and hands it to the host's [Clear]. *)
Theorem undeclared_field_name wrapped schema n value unit_type_id :
  Schema wrapped = Some schema →
  GetField schema n = None →
  let attr := match unit_type_id with
              | None => "GetSpecTypeId"
              | Some _ => "ContainerType"
              end in
  let e := AttributeError ("'NoneType' object has no attribute '" ++ attr ++ "'") in
  Entity_get wrapped (ArgName n) unit_type_id = Raise e
  ∧ Entity_set wrapped (ArgName n) value unit_type_id = Raise e
  ∧ Entity_clear wrapped (ArgName n) = Entity_Clear wrapped (inl n)
  ∧ raised_by_library e = false.
Proof.
  intros Hs Hf. unfold Entity_get, Entity_set.
  rewrite (lookup_field_undeclared _ _ _ Hs Hf).
  destruct unit_type_id; repeat split; reflexivity.
Qed.

End EntityAccess.

(** C7, as stated, fails: [get] and [set] with an undeclared name end in an
    [AttributeError] of the interpreter, not in an error the library raises
    for the unknown field. *)
Lemma get_undeclared_field_attribute_error :
  @Entity_get demo_host sample_entity (ArgName "missing") None
  = Raise (AttributeError "'NoneType' object has no attribute 'GetSpecTypeId'")
  ∧ @Entity_set demo_host sample_entity (ArgName "missing") (VInt 1) None
    = Raise (AttributeError "'NoneType' object has no attribute 'GetSpecTypeId'")
  ∧ raised_by_library
      (AttributeError "'NoneType' object has no attribute 'GetSpecTypeId'") = false.
Proof. repeat split; reflexivity. Qed.

Lemma undeclared_field_name_witness :
  @Entity_get demo_host sample_entity (ArgName "missing") (Some "autodesk.unit.unit:feet")
  = Raise (AttributeError "'NoneType' object has no attribute 'ContainerType'").
Proof.
  refine (proj1 (@undeclared_field_name demo_host sample_entity
                   metadata_v1 "missing" VNone (Some "autodesk.unit.unit:feet") _ _)).
  - reflexivity.
  - reflexivity.
Defined.

Lemma set_empty_collection_never_succeeds_witness :
  @Entity_set demo_host sample_entity (ArgName "tags") (VList []) None
  = Raise StopIteration.
Proof.
  refine (proj2 (proj2 (@set_empty_collection_never_succeeds demo_host sample_entity
                          (ArgName "tags") (VList []) None _))
                (sample_field "tags" Array String_ None) "" (IList String_) _ _ _).
  - reflexivity.
  - reflexivity.
  - reflexivity.
  - reflexivity.
Defined.

Section SchemaBuilding.
Context `{Host}.

Lemma sample_Base_declared :
  SchemaMeta_new [] "Base" [BaseSchema_class]
                 [("guid", AttrObj (PyGuid 1%N)); ("a", AttrField (int32_field "a"))]
  = Ok sample_Base.
Proof. reflexivity. Qed.

Lemma sample_Derived_declared :
  SchemaMeta_new [] "Derived" (mro sample_Base)
                 [("guid", AttrObj (PyGuid 2%N)); ("b", AttrField (int32_field "b"))]
  = Ok sample_Derived.
Proof. reflexivity. Qed.

Lemma add_field_fields sb fd sb' :
  add_field sb fd = Ok sb' →
  sb_guid sb' = sb_guid sb
  ∧ ∃ fb, sb_fields sb' = (sb_fields sb ++ [fb])%list ∧ built_from fb fd.
Proof.
  unfold add_field. destruct (negb (AcceptableName (name fd))); [discriminate|].
  destruct (_add_field sb fd) as [fb|] eqn:Hadd; simpl; [|discriminate].
  assert (Hfb : fb_name fb = name fd ∧ fb_container fb = container_type fd
                ∧ fb_value_type fb = value_type fd).
  { unfold _add_field, AddField in Hadd.
    destruct (container_type fd); try destruct (key_type fd); try discriminate;
      destruct (AddField_accepts _ _); try discriminate;
      injection Hadd as <-; auto. }
  destruct Hfb as (Hn & Hc & Hv).
  unfold set_field_spec_type_id. simpl.
  destruct (NeedsUnits _); [destruct (SetSpec_accepts _ _); [|discriminate]|];
    simpl; unfold set_sub_schema_guid;
    (destruct (NeedsSubSchemaGUID _);
     [destruct (sub_schema_guid fd); try discriminate;
      destruct (SetSubSchemaGUID_accepts _ _); [|discriminate]|]);
    simpl; intros [= <-]; (split; [reflexivity|]);
    eexists; (split; [reflexivity|]); repeat split; simpl; auto.
Qed.

Lemma add_fields_of_items_fields items : ∀ sb sb',
  add_fields_of_items sb items = Ok sb' →
  sb_guid sb' = sb_guid sb
  ∧ ∃ fbs, sb_fields sb' = (sb_fields sb ++ fbs)%list
           ∧ Forall2 built_from fbs (field_descriptors items).
Proof.
  induction items as [|[k a] items IH]; intros sb sb'; simpl.
  - intros [= <-]. split; [reflexivity|]. exists []. split; [by rewrite app_nil_r|constructor].
  - destruct a as [o|fd].
    + intros Hrest. apply IH in Hrest. exact Hrest.
    + destruct (add_field sb fd) as [sb1|] eqn:Hadd; simpl; [|discriminate].
      intros Hrest. apply IH in Hrest as (Hg & fbs & Hfs & Hall).
      apply add_field_fields in Hadd as (Hg1 & fb & Hf1 & Hfb).
      split; [congruence|]. exists (fb :: fbs). split.
      * rewrite Hfs, Hf1, <- app_assoc. reflexivity.
      * unfold field_descriptors. simpl. constructor; assumption.
Qed.

Lemma add_fields_of_classes_fields classes : ∀ sb sb',
  add_fields_of_classes sb classes = Ok sb' →
  sb_guid sb' = sb_guid sb
  ∧ ∃ fbs, sb_fields sb' = (sb_fields sb ++ fbs)%list
           ∧ Forall2 built_from fbs
                     (classes ≫= (fun base_cls => field_descriptors (cls_dict base_cls))).
Proof.
  induction classes as [|c classes IH]; intros sb sb'; simpl.
  - intros [= <-]. split; [reflexivity|]. exists []. split; [by rewrite app_nil_r|constructor].
  - destruct (add_fields_of_items sb (cls_dict c)) as [sb1|] eqn:Hitems; simpl; [|discriminate].
    intros Hrest. apply IH in Hrest as (Hg & fbs & Hfs & Hall).
    apply add_fields_of_items_fields in Hitems as (Hg1 & fbs1 & Hf1 & Hall1).
    split; [congruence|]. exists (fbs1 ++ fbs)%list. split.
    + rewrite Hfs, Hf1, <- app_assoc. reflexivity.
    + apply Forall2_app; assumption.
Qed.

Lemma initialize_schema_fields guid schema_name doc ra wa vendor app sb :
  initialize_schema guid schema_name doc ra wa vendor app = Ok sb →
  guid = PyGuid (sb_guid sb) ∧ sb_fields sb = [].
Proof.
  unfold initialize_schema, _create_schema_builder, as_guid.
  destruct guid; try discriminate. simpl.
  destruct (negb (GUIDIsValid g)); [discriminate|]. simpl.
  unfold _set_schema_name. destruct schema_name; try discriminate.
  destruct (negb (AcceptableName s)); [discriminate|]. simpl.
  unfold _set_access_levels. destruct ra; try discriminate.
  destruct wa; try discriminate. simpl.
  unfold _set_optional_properties.
  destruct vendor; try discriminate; simpl;
    try (destruct (negb (VendorIdIsValid _)); [discriminate|]; simpl);
    (destruct app; simpl; try discriminate;
     try (destruct (System_Guid _); simpl; [|discriminate]);
     try (destruct (negb (GUIDIsValid _)); [discriminate|]);
     intros [= <-]; split; reflexivity).
Qed.

Lemma build_schema_builder_fields cls sb :
  build_schema_builder cls = Ok sb →
  class_getattr cls "guid" = Ok (PyGuid (sb_guid sb))
  ∧ Forall2 built_from (sb_fields sb) (descriptors_in_mro_order cls).
Proof.
  unfold build_schema_builder.
  destruct (class_getattr cls "guid") as [guid|]; simpl; [|discriminate].
  destruct (class_getattr cls "schema_name") as [schema_name|]; simpl; [|discriminate].
  destruct (class_getattr cls "read_access_level") as [ra|]; simpl; [|discriminate].
  destruct (class_getattr cls "write_access_level") as [wa|]; simpl; [|discriminate].
  destruct (class_getattr cls "vendor_id") as [vendor|]; simpl; [|discriminate].
  destruct (class_getattr cls "application_guid") as [app|]; simpl; [|discriminate].
  destruct (initialize_schema _ _ _ _ _ _ _) as [sb0|] eqn:Hinit; simpl; [|discriminate].
  intros Hadd. apply initialize_schema_fields in Hinit as (-> & Hnil).
  apply (add_fields_of_classes_fields (mro cls)) in Hadd as (Hg & fbs & Hfs & Hall).
  rewrite Hnil in Hfs. simpl in Hfs. rewrite Hfs, Hg. split; [reflexivity|exact Hall].
Qed.

(** C6, as amended: the fields of the builder that [build_schema] finishes
    are those of the class and its bases in method resolution order: the
    fields of the class itself first, then those of its bases, nearest base
    first, each class's fields in the order of its dictionary. *)
Theorem build_schema_adds_fields_in_mro_order cls sb :
  build_schema_builder cls = Ok sb →
  Forall2 built_from (sb_fields sb) (descriptors_in_mro_order cls)
  ∧ fb_name <$> sb_fields sb = name <$> descriptors_in_mro_order cls.
Proof.
  intros Hb. apply build_schema_builder_fields in Hb as [_ Hall].
  split; [exact Hall|].
  induction Hall as [|fb fd fbs fds Hfb _ IH]; [reflexivity|].
  rewrite !fmap_cons, IH. destruct Hfb as [-> _]. reflexivity.
Qed.

End SchemaBuilding.

(** C6, as stated, fails: for [Derived(Base)] the builder receives the
    field [b] of the derived class before the field [a] of its base. *)
Lemma derived_fields_added_before_base :
  ∃ sb, @build_schema_builder demo_host sample_Derived = Ok sb
        ∧ fb_name <$> sb_fields sb = ["b"; "a"].
Proof. eexists. split; reflexivity. Qed.

Lemma build_schema_adds_fields_in_mro_order_witness :
  ∃ sb, @build_schema_builder demo_host sample_Derived = Ok sb
        ∧ fb_name <$> sb_fields sb = name <$> descriptors_in_mro_order sample_Derived.
Proof.
  eexists. split; [reflexivity|].
  refine (proj2 (@build_schema_adds_fields_in_mro_order demo_host sample_Derived _ _)).
  reflexivity.
Defined.

Section SchemaBinding.
Context `{Host}.

Lemma dict_get_set_eq {V} (d : list (string * V)) k v :
  dict_get (dict_set d k v) k = Some v.
Proof.
  induction d as [|[k' v'] d IH]; simpl.
  - rewrite bool_decide_eq_true_2; reflexivity.
  - destruct (bool_decide (k' = k)) eqn:Hk; simpl.
    + rewrite bool_decide_eq_true_2; reflexivity.
    + rewrite Hk. exact IH.
Qed.

Lemma dict_get_set_ne {V} (d : list (string * V)) k k' v :
  k ≠ k' → dict_get (dict_set d k v) k' = dict_get d k'.
Proof.
  intros Hne. induction d as [|[k0 v0] d IH]; simpl.
  - rewrite bool_decide_eq_false_2; [reflexivity|exact Hne].
  - destruct (bool_decide (k0 = k)) eqn:Hk; simpl.
    + apply bool_decide_eq_true_1 in Hk as ->.
      rewrite !bool_decide_eq_false_2; [reflexivity|exact Hne].
    + destruct (bool_decide (k0 = k')); [reflexivity|exact IH].
Qed.



Lemma build_schema_guid registry cls s registry' :
  build_schema registry cls = Ok (s, registry') →
  class_getattr cls "guid" = Ok (PyGuid (GUID s)) ∧ registry' = (registry ++ [s])%list.
Proof.
  unfold build_schema.
  destruct (build_schema_builder cls) as [sb|] eqn:Hsb; simpl; [|discriminate].
  unfold Finish. destruct (Finish_accepts registry sb); [|discriminate].
  intros [= <- <-]. apply build_schema_builder_fields in Hsb as [Hg _].
  split; [exact Hg|reflexivity].
Qed.

Lemma mro_schema_own cls entry :
  _schema cls = Some entry → mro_schema (mro cls) = Some entry.
Proof. intros Hs. simpl. rewrite Hs. reflexivity. Qed.

Lemma request_schema_bound n cls registry s :
  _schema cls = Some (Some s) →
  request_schema n cls registry = (replicate n (Ok s), cls, registry).
Proof.
  intros Hs. induction n as [|n IH]; simpl; [reflexivity|].
  unfold SchemaMeta_schema. rewrite (mro_schema_own _ _ Hs), IH. reflexivity.
Qed.

Lemma build_calls_bound n cls registry s :
  _schema cls = Some (Some s) → build_calls n cls registry = 0%nat.
Proof.
  intros Hs. induction n as [|n IH]; [reflexivity|].
  cbn [build_calls]. unfold SchemaMeta_schema.
  rewrite (mro_schema_own _ _ Hs), IH. reflexivity.
Qed.

Lemma request_schema_refused n cls registry e :
  _schema cls = Some None →
  build_schema registry cls = Raise e →
  request_schema n cls registry = (replicate n (Raise e), cls, registry).
Proof.
  intros Hs Hbuild. induction n as [|n IH]; simpl; [reflexivity|].
  unfold SchemaMeta_schema. rewrite (mro_schema_own _ _ Hs), Hbuild, IH. reflexivity.
Qed.

Lemma request_schema_outcome n cls registry rs cls' registry' g entry :
  class_getattr cls "guid" = Ok (PyGuid g) →
  _schema cls = Some entry →
  (∀ s, entry = Some s → GUID s = g) →
  request_schema n cls registry = (rs, cls', registry') →
  (∃ e, rs = replicate n (Raise e) ∧ registry' = registry)
  ∨ (∃ s, GUID s = g ∧ rs = replicate n (Ok s)
          ∧ (registry' = registry ∨ registry' = (registry ++ [s])%list)
          ∧ (build_calls n cls registry ≤ 1)%nat).
Proof.
  intros Hguid Hs Hbound. destruct entry as [s|].
  - rewrite (request_schema_bound _ _ _ _ Hs). intros [= <- <- <-].
    right. exists s. rewrite (build_calls_bound _ _ _ _ Hs). auto with lia.
  - destruct (build_schema registry cls) as [[s registry1]|e] eqn:Hbuild.
    + destruct n as [|n]; cbn [request_schema build_calls].
      * intros [= <- <- <-]. left. exists StopIteration. auto.
      * unfold SchemaMeta_schema. rewrite (mro_schema_own _ _ Hs), Hbuild.
        rewrite (request_schema_bound n (set_schema cls s) registry1 s) by reflexivity.
        intros [= <- <- <-].
        rewrite (build_calls_bound n (set_schema cls s) registry1 s) by reflexivity.
        apply build_schema_guid in Hbuild as [Hg ->].
        right. exists s. split; [congruence|]. split; [reflexivity|].
        split; [right; reflexivity|lia].
    + rewrite (request_schema_refused _ _ _ _ Hs Hbuild). intros [= <- <- <-].
      left. exists e. auto.
Qed.




End SchemaBinding.



(** Declared on an empty registry, [Base] is built at the first request
    and only then. *)
Lemma sample_Base_built_once :
  ∃ s, @request_schema demo_host 3 sample_Base []
       = (replicate 3 (Ok s), set_schema sample_Base s, [s])
       ∧ GUID s = 1%N ∧ FieldName <$> ListFields s = ["a"]
       ∧ @build_calls demo_host 3 sample_Base [] = 1%nat.
Proof. eexists. split; [reflexivity|]. repeat split; reflexivity. Qed.

Section Migration.
Context `{Host}.

Lemma allowed_value_type_plain t :
  t ∈ ALLOWED_VALUE_TYPES.*2 →
  (∀ v, t ≠ IList v) ∧ (∀ k v, t ≠ IDictionary k v).
Proof.
  intros Hin. apply list_elem_of_In in Hin. simpl in Hin.
  repeat (destruct Hin as [<-|Hin]; [split; intros; discriminate|]).
  destruct Hin.
Qed.

Lemma GetField_elem_of schema n f : GetField schema n = Some f → f ∈ ListFields schema.
Proof.
  unfold GetField. intros Hfind. apply find_some in Hfind as [Hin _].
  apply list_elem_of_In. exact Hin.
Qed.

Lemma transfer_fields_array_map from_entity old_schema to_entity fields :
  Schema from_entity = Some old_schema →
  (∀ f, f ∈ ListFields old_schema → ValueType f ∈ ALLOWED_VALUE_TYPES.*2) →
  (∀ f, f ∈ fields →
        FieldContainerType f = Array
        ∨ (FieldContainerType f = Map ∧ is_Some (KeyType f))) →
  transfer_fields from_entity fields to_entity = (Ok (), to_entity).
Proof.
  intros Hfrom Hold. induction fields as [|field rest IH]; intros Hnew; [reflexivity|].
  simpl. rewrite Hfrom. simpl.
  assert (Hrest : transfer_fields from_entity rest to_entity = (Ok (), to_entity)).
  { apply IH. intros f Hf. apply Hnew. right. exact Hf. }
  destruct (GetField old_schema (FieldName field)) as [old_field|] eqn:Hget; [|exact Hrest].
  apply GetField_elem_of, Hold, allowed_value_type_plain in Hget as [Hlist Hdict].
  destruct (Hnew field) as [Hc|[Hc [kt Hkt]]]; [left|..].
  - unfold determine_field_type. simpl. rewrite Hc. simpl.
    rewrite bool_decide_eq_false_2; [exact Hrest|]. intros Heq. exact (Hlist _ (eq_sym Heq)).
  - unfold determine_field_type. simpl. rewrite Hc, Hkt. simpl.
    rewrite bool_decide_eq_false_2; [exact Hrest|]. intros Heq. exact (Hdict _ _ (eq_sym Heq)).
Qed.

(** C2, the defect in general: when the new schema declares only [Array]
    and [Map] fields, the transfer copies nothing, whatever the old schema
    declares, because the container type of the new field is compared with
    the plain value type of the old one. *)
Theorem transfer_copies_no_array_or_map_field from_entity to_entity old_schema new_schema :
  Schema from_entity = Some old_schema →
  Schema to_entity = Some new_schema →
  (∀ f, f ∈ ListFields old_schema → ValueType f ∈ ALLOWED_VALUE_TYPES.*2) →
  (∀ f, f ∈ ListFields new_schema →
        FieldContainerType f = Array
        ∨ (FieldContainerType f = Map ∧ is_Some (KeyType f))) →
  transfer_field_data from_entity to_entity = (Ok (), to_entity).
Proof.
  intros Hfrom Hto Hold Hnew. unfold transfer_field_data. rewrite Hto. simpl.
  eapply transfer_fields_array_map; eassumption.
Qed.

End Migration.

(** The array field [tags] has the same name, value type and container in
    both revisions, and the old entity holds two tags; nothing is copied. *)
Lemma transfer_copies_no_array_or_map_field_witness :
  @Entity_Get demo_host old_tags_entity (IList String_) (inl "tags") ""
  = Ok (VNetList String_ [VStr "wall"; VStr "exterior"])
  ∧ @transfer_field_data demo_host old_tags_entity new_tags_entity
    = (Ok (), new_tags_entity)
  ∧ stored new_tags_entity !! "tags" = None.
Proof.
  split; [reflexivity|]. split; [|reflexivity].
  refine (@transfer_copies_no_array_or_map_field demo_host old_tags_entity new_tags_entity
            Metadata_old Metadata_new _ _ _ _).
  - reflexivity.
  - reflexivity.
  - intros f Hf. apply list_elem_of_In in Hf. simpl in Hf.
    destruct Hf as [<-|[]]. apply list_elem_of_In. simpl. tauto.
  - intros f Hf. apply list_elem_of_In in Hf. simpl in Hf.
    destruct Hf as [<-|[]]. left. reflexivity.
Defined.

(** A field whose container kind changed between the revisions while name
    and value type stayed is not skipped: the transfer asks the old entity
    for a plain integer, and the reference host refuses. *)
Lemma transfer_container_mismatch_not_skipped :
  @transfer_field_data demo_host old_count_entity new_count_entity
  = (Raise (HostError "requested type does not match the field"), new_count_entity).
Proof. reflexivity. Qed.

Section Deletion.
Context `{Host}.

Lemma GetEntity_valid element schema old_schema :
  Schema (GetEntity element schema) = Some old_schema →
  entities element !! GUID schema = Some (GetEntity element schema).
Proof.
  unfold GetEntity. destruct (entities element !! GUID schema); [reflexivity|discriminate].
Qed.

Lemma DeleteEntity_wf element schema :
  element_wf element → element_wf (DeleteEntity element schema).
Proof.
  intros Hwf k e s. unfold DeleteEntity. simpl. intros Hk.
  apply lookup_delete_Some in Hk as [_ Hk]. exact (Hwf k e s Hk).
Qed.

(** What one run of the loop does to the entity stored under a key: it is
    left alone, or deleted after a transfer from it that returned. *)
Lemma update_from_schemas_entities schemas : ∀ element entity remove_old r element' entity',
  element_wf element →
  update_from_schemas schemas element entity remove_old = (r, element', entity') →
  ∀ k, entities element' !! k = entities element !! k
       ∨ (entities element' !! k = None ∧ remove_old = true
          ∧ ∃ old to to', entities element !! k = Some old
                          ∧ transfer_field_data old to = (Ok (), to')).
Proof.
  induction schemas as [|schema rest IH]; intros element entity remove_old r element' entity' Hwf;
    simpl.
  - intros [= <- <- <-] k. left. reflexivity.
  - destruct (Schema (GetEntity element schema)) as [old_schema|] eqn:Hold;
      [|apply IH; exact Hwf].
    destruct (transfer_field_data (GetEntity element schema) entity) as [[u|e] entity1]
      eqn:Htransfer.
    + destruct remove_old; [|apply IH; exact Hwf]. simpl.
      intros Hrest k.
      pose proof (GetEntity_valid _ _ _ Hold) as Hstored.
      pose proof (Hwf _ _ _ Hstored Hold) as Hguid.
      destruct (IH _ _ _ _ _ _ (DeleteEntity_wf element old_schema Hwf) Hrest k)
        as [Hsame|(Hnone & Hro & old & to & to' & Hk & Hok)]; simpl in *.
      * destruct (decide (k = GUID old_schema)) as [->|Hne].
        -- right. rewrite lookup_delete_eq in Hsame. split; [exact Hsame|].
           split; [reflexivity|]. destruct u.
           exists (GetEntity element schema), entity, entity1.
           split; [rewrite Hguid; exact Hstored|exact Htransfer].
        -- left. rewrite Hsame. apply lookup_delete_ne. congruence.
      * apply lookup_delete_Some in Hk as [_ Hk]. right. split; [exact Hnone|].
        split; [reflexivity|]. eauto.
    + intros [= <- <- <-] k. left. reflexivity.
Qed.

(** Where a run of the loop stops with an error, the old entity whose
    transfer raised it is still on the element. *)
Lemma update_from_schemas_raise schemas : ∀ element entity remove_old e element' entity',
  update_from_schemas schemas element entity remove_old = (Raise e, element', entity') →
  ∃ schema old to,
    schema ∈ schemas
    ∧ entities element' !! GUID schema = Some old
    ∧ IsValid old = true
    ∧ (transfer_field_data old to).1 = Raise e.
Proof.
  induction schemas as [|schema rest IH]; intros element entity remove_old e element' entity';
    simpl; [discriminate|].
  destruct (Schema (GetEntity element schema)) as [old_schema|] eqn:Hold.
  - destruct (transfer_field_data (GetEntity element schema) entity) as [[u|e1] entity1]
      eqn:Htransfer.
    + destruct remove_old; simpl; intros Hrest;
        destruct (IH _ _ _ _ _ _ Hrest) as (s & old & to & Hin & Hrest');
        exists s, old, to; (split; [right; exact Hin|exact Hrest']).
    + intros [= <- <- <-].
      exists schema, (GetEntity element schema), entity. split; [left|].
      split; [exact (GetEntity_valid _ _ _ Hold)|]. split.
      * unfold IsValid. rewrite Hold. reflexivity.
      * rewrite Htransfer. reflexivity.
  - intros Hrest. destruct (IH _ _ _ _ _ _ Hrest) as (s & old & to & Hin & Hrest').
    exists s, old, to. split; [right; exact Hin|exact Hrest'].
Qed.

Lemma update_from_schemas_invalid schema rest element entity remove_old :
  Schema (GetEntity element schema) = None →
  update_from_schemas (schema :: rest) element entity remove_old
  = update_from_schemas rest element entity remove_old.
Proof. intros Hold. cbn [update_from_schemas]. rewrite Hold. reflexivity. Qed.

Lemma update_from_schemas_copied schema rest element entity remove_old old_schema entity1 :
  Schema (GetEntity element schema) = Some old_schema →
  transfer_field_data (GetEntity element schema) entity = (Ok (), entity1) →
  update_from_schemas (schema :: rest) element entity remove_old
  = update_from_schemas rest
      (if remove_old then DeleteEntity element old_schema else element) entity1 remove_old.
Proof.
  intros Hold Htransfer. cbn [update_from_schemas]. rewrite Hold, Htransfer.
  destruct remove_old; reflexivity.
Qed.

Lemma update_from_schemas_failed schema rest element entity remove_old old_schema e entity1 :
  Schema (GetEntity element schema) = Some old_schema →
  transfer_field_data (GetEntity element schema) entity = (Raise e, entity1) →
  update_from_schemas (schema :: rest) element entity remove_old
  = (Raise e, element, entity1).
Proof.
  intros Hold Htransfer. cbn [update_from_schemas]. rewrite Hold, Htransfer. reflexivity.
Qed.

(** The loop over a list is the loop over its first part followed, when
    that returned, by the loop over the rest. *)
Lemma update_from_schemas_app done : ∀ rest element entity remove_old,
  update_from_schemas (done ++ rest) element entity remove_old
  = match update_from_schemas done element entity remove_old with
    | (Ok _, element1, entity1) => update_from_schemas rest element1 entity1 remove_old
    | (Raise e, element1, entity1) => (Raise e, element1, entity1)
    end.
Proof.
  induction done as [|schema done IH]; intros rest element entity remove_old;
    [reflexivity|].
  rewrite <- app_comm_cons.
  destruct (Schema (GetEntity element schema)) as [old_schema|] eqn:Hold.
  - destruct (transfer_field_data (GetEntity element schema) entity) as [[[]|e] entity1]
      eqn:Htransfer.
    + rewrite !(update_from_schemas_copied _ _ _ _ _ _ _ Hold Htransfer). apply IH.
    + rewrite !(update_from_schemas_failed _ _ _ _ _ _ _ _ Hold Htransfer). reflexivity.
  - rewrite !(update_from_schemas_invalid _ _ _ _ _ Hold). apply IH.
Qed.

(** The entity stored under a key is left alone by a run of the loop, or
    deleted at the schema where the run's own transfer from it, into the new
    entity as the run had it by then, returned. *)
Lemma update_from_schemas_deleted schemas :
  ∀ element entity remove_old r element' entity',
  element_wf element →
  update_from_schemas schemas element entity remove_old = (r, element', entity') →
  ∀ k, entities element' !! k = entities element !! k
       ∨ (entities element' !! k = None ∧ remove_old = true
          ∧ ∃ done schema rest element1 entity1 entity2,
              schemas = (done ++ schema :: rest)%list
              ∧ update_from_schemas done element entity remove_old
                = (Ok (), element1, entity1)
              ∧ GUID schema = k
              ∧ entities element !! k = Some (GetEntity element1 schema)
              ∧ transfer_field_data (GetEntity element1 schema) entity1
                = (Ok (), entity2)).
Proof.
  induction schemas as [|schema rest IH];
    intros element entity remove_old r element' entity' Hwf.
  - intros [= <- <- <-] k. left. reflexivity.
  - destruct (Schema (GetEntity element schema)) as [old_schema|] eqn:Hold.
    + destruct (transfer_field_data (GetEntity element schema) entity) as [[[]|e] entity1]
        eqn:Htransfer.
      * rewrite (update_from_schemas_copied _ _ _ _ _ _ _ Hold Htransfer).
        pose proof (GetEntity_valid _ _ _ Hold) as Hstored.
        pose proof (Hwf _ _ _ Hstored Hold) as Hguid.
        destruct remove_old.
        -- intros Hrun k.
           destruct (IH _ _ _ _ _ _ (DeleteEntity_wf element old_schema Hwf) Hrun k)
             as [Hsame|(Hnone & _ & done & s & rest' & el1 & ent1 & ent2
                        & -> & Hdone & Hk & Hold1 & Hcopy)]; simpl in *.
           ++ destruct (decide (k = GUID old_schema)) as [->|Hne].
              ** right. rewrite lookup_delete_eq in Hsame. split; [exact Hsame|].
                 split; [reflexivity|].
                 exists [], schema, rest, element, entity, entity1.
                 rewrite Hguid. repeat split; assumption.
              ** left. rewrite Hsame. apply lookup_delete_ne. congruence.
           ++ right. split; [exact Hnone|]. split; [reflexivity|].
              exists (schema :: done), s, rest', el1, ent1, ent2.
              split; [reflexivity|]. split.
              { rewrite (update_from_schemas_copied _ _ _ _ _ _ _ Hold Htransfer).
                exact Hdone. }
              split; [exact Hk|]. split; [|exact Hcopy].
              apply lookup_delete_Some in Hold1 as [_ Hold1]. exact Hold1.
        -- intros Hrun k.
           destruct (IH _ _ _ _ _ _ Hwf Hrun k) as [Hsame|(_ & Hfalse & _)];
             [left; exact Hsame|discriminate].
      * rewrite (update_from_schemas_failed _ _ _ _ _ _ _ _ Hold Htransfer).
        intros [= <- <- <-] k. left. reflexivity.
    + rewrite (update_from_schemas_invalid _ _ _ _ _ Hold). intros Hrun k.
      destruct (IH _ _ _ _ _ _ Hwf Hrun k)
        as [Hsame|(Hnone & Hro & done & s & rest' & el1 & ent1 & ent2
                   & -> & Hdone & Hk & Hold1 & Hcopy)];
        [left; exact Hsame|].
      right. split; [exact Hnone|]. split; [exact Hro|].
      exists (schema :: done), s, rest', el1, ent1, ent2.
      split; [reflexivity|]. split; [|auto].
      rewrite (update_from_schemas_invalid _ _ _ _ _ Hold). exact Hdone.
Qed.

(** A run of the loop that ends in an error stopped at a schema whose
    transfer raised it, with the element as it was when that transfer
    began. *)
Lemma update_from_schemas_stopped schemas :
  ∀ element entity remove_old e element' entity',
  update_from_schemas schemas element entity remove_old = (Raise e, element', entity') →
  ∃ done schema rest entity1,
    schemas = (done ++ schema :: rest)%list
    ∧ update_from_schemas done element entity remove_old = (Ok (), element', entity1)
    ∧ IsValid (GetEntity element' schema) = true
    ∧ transfer_field_data (GetEntity element' schema) entity1 = (Raise e, entity')
    ∧ entities element' !! GUID schema = Some (GetEntity element' schema).
Proof.
  induction schemas as [|schema rest IH];
    intros element entity remove_old e element' entity'; [discriminate|].
  destruct (Schema (GetEntity element schema)) as [old_schema|] eqn:Hold.
  - destruct (transfer_field_data (GetEntity element schema) entity) as [[[]|e1] entity1]
      eqn:Htransfer.
    + rewrite (update_from_schemas_copied _ _ _ _ _ _ _ Hold Htransfer). intros Hrun.
      destruct (IH _ _ _ _ _ _ Hrun) as (done & s & rest' & ent1 & -> & Hdone & Hrest).
      exists (schema :: done), s, rest', ent1. split; [reflexivity|].
      split; [|exact Hrest].
      rewrite (update_from_schemas_copied _ _ _ _ _ _ _ Hold Htransfer). exact Hdone.
    + rewrite (update_from_schemas_failed _ _ _ _ _ _ _ _ Hold Htransfer).
      intros [= <- <- <-]. exists [], schema, rest, entity.
      split; [reflexivity|]. split; [reflexivity|]. split.
      * unfold IsValid. rewrite Hold. reflexivity.
      * split; [exact Htransfer|exact (GetEntity_valid _ _ _ Hold)].
  - rewrite (update_from_schemas_invalid _ _ _ _ _ Hold). intros Hrun.
    destruct (IH _ _ _ _ _ _ Hrun) as (done & s & rest' & ent1 & -> & Hdone & Hrest).
    exists (schema :: done), s, rest', ent1. split; [reflexivity|].
    split; [|exact Hrest].
    rewrite (update_from_schemas_invalid _ _ _ _ _ Hold). exact Hdone.
Qed.

(** A transfer that raises stops the loop there. *)
Lemma update_from_schemas_raising_transfer
    done schema rest element entity remove_old element1 entity1 e entity2 :
  update_from_schemas done element entity remove_old = (Ok (), element1, entity1) →
  IsValid (GetEntity element1 schema) = true →
  transfer_field_data (GetEntity element1 schema) entity1 = (Raise e, entity2) →
  update_from_schemas (done ++ schema :: rest) element entity remove_old
  = (Raise e, element1, entity2)
  ∧ entities element1 !! GUID schema = Some (GetEntity element1 schema).
Proof.
  intros Hdone Hvalid Htransfer. rewrite update_from_schemas_app, Hdone.
  unfold IsValid in Hvalid.
  destruct (Schema (GetEntity element1 schema)) as [old_schema|] eqn:Hold; [|discriminate].
  split; [exact (update_from_schemas_failed _ _ _ _ _ _ _ _ Hold Htransfer)|].
  exact (GetEntity_valid _ _ _ Hold).
Qed.

End Deletion.

Section UpdateScope.
Context `{Host}.

Lemma list_similar_schemas_elem_of registry schema schemas s :
  list_similar_schemas registry schema = Ok schemas → s ∈ schemas → s ∈ registry.
Proof.
  unfold list_similar_schemas. destruct registry as [|s0 registry].
  - intros [= <-] Hin. exact Hin.
  - destruct (getattr schema "SchemaName") as [sch|]; unfold bind; [|discriminate].
    intros [= <-] Hin. apply list_elem_of_In in Hin. apply list_elem_of_In.
    exact (proj1 (proj1 (filter_In _ s (s0 :: registry)) Hin)).
Qed.

(** C3: in a run of [update_schema_entities] on an element that stores its
    entities under their schema GUIDs, an entity of the element is either
    left as it was, or deleted at the old schema where the run's own
    transfer, from that entity into the new entity as the earlier transfers
    of the run left it, returned without error.  When a transfer of the run
    raises, the run ends there with that error and the element, as it was
    when the transfer began, still carries the old entity; and a run that
    ends in an error ended so. *)
Theorem old_entity_deleted_only_after_transfer
    registry element entity remove_old r element' entity' :
  element_wf element →
  update_schema_entities registry element entity remove_old = (r, element', entity') →
  (∀ k, entities element' !! k = entities element !! k
        ∨ (entities element' !! k = None ∧ remove_old = true
           ∧ ∃ done schema rest element1 entity1 entity2,
               list_similar_schemas registry (Schema entity)
               = Ok (done ++ schema :: rest)%list
               ∧ update_from_schemas done element entity remove_old
                 = (Ok (), element1, entity1)
               ∧ GUID schema = k
               ∧ entities element !! k = Some (GetEntity element1 schema)
               ∧ transfer_field_data (GetEntity element1 schema) entity1
                 = (Ok (), entity2)))
  ∧ (∀ done schema rest element1 entity1 e entity2,
       list_similar_schemas registry (Schema entity) = Ok (done ++ schema :: rest)%list →
       update_from_schemas done element entity remove_old = (Ok (), element1, entity1) →
       IsValid (GetEntity element1 schema) = true →
       transfer_field_data (GetEntity element1 schema) entity1 = (Raise e, entity2) →
       r = Raise e ∧ element' = element1 ∧ entity' = entity2
       ∧ entities element' !! GUID schema = Some (GetEntity element1 schema))
  ∧ (∀ e, r = Raise e →
          (list_similar_schemas registry (Schema entity) = Raise e ∧ element' = element)
          ∨ ∃ done schema rest entity1,
              list_similar_schemas registry (Schema entity)
              = Ok (done ++ schema :: rest)%list
              ∧ update_from_schemas done element entity remove_old
                = (Ok (), element', entity1)
              ∧ IsValid (GetEntity element' schema) = true
              ∧ transfer_field_data (GetEntity element' schema) entity1
                = (Raise e, entity')
              ∧ entities element' !! GUID schema = Some (GetEntity element' schema)).
Proof.
  intros Hwf. unfold update_schema_entities.
  destruct (list_similar_schemas registry (Schema entity)) as [schemas|e0] eqn:Hsimilar.
  - intros Hrun. split; [|split].
    + intros k.
      destruct (update_from_schemas_deleted _ _ _ _ _ _ _ Hwf Hrun k)
        as [Hsame|(Hnone & Hro & done & s & rest & el1 & ent1 & ent2 & -> & Hrest)];
        [left; exact Hsame|].
      right. split; [exact Hnone|]. split; [exact Hro|].
      exists done, s, rest, el1, ent1, ent2. split; [reflexivity|exact Hrest].
    + intros done schema rest element1 entity1 e entity2 [= ->] Hdone Hvalid Htransfer.
      destruct (update_from_schemas_raising_transfer done schema rest _ _ _ _ _ _ _
                  Hdone Hvalid Htransfer) as [Hstop Hkept].
      rewrite Hstop in Hrun. injection Hrun as <- <- <-. auto.
    + intros e ->. right.
      destruct (update_from_schemas_stopped _ _ _ _ _ _ _ Hrun)
        as (done & s & rest & ent1 & -> & Hrest).
      exists done, s, rest, ent1. split; [reflexivity|exact Hrest].
  - intros [= <- <- <-]. split; [|split].
    + intros k. left. reflexivity.
    + intros done schema rest element1 entity1 e entity2 Hfalse. discriminate Hfalse.
    + intros e [= <-]. left. split; reflexivity.
Qed.

(** C1, as amended: once the scope is entered, leaving it stores the
    wrapped entity on the element whether the body returned or raised,
    provided the host accepts the entity; the scope ends as its body did. *)
Theorem scope_exit_stores_on_every_path registry self body self1 r_body self2 schema :
  BaseSchema_enter registry self = (Ok (), self1) →
  body self1 = (r_body, self2) →
  Schema (_wrapped self2) = Some schema →
  SetEntity_accepts (element self2) (_wrapped self2) = true →
  ∃ self3,
    with_BaseSchema registry self body = (r_body, self3)
    ∧ _wrapped self3 = _wrapped self2
    ∧ entities (element self3) !! GUID schema = Some (_wrapped self2).
Proof.
  intros Henter Hbody Hschema Haccept. unfold with_BaseSchema.
  rewrite Henter, Hbody. unfold BaseSchema_exit, Transaction, SetEntity.
  rewrite Hschema, Haccept.
  destruct r_body as [[]|e]; eexists; (split; [reflexivity|]);
    (split; [reflexivity|]); simpl; apply lookup_insert_eq.
Qed.

End UpdateScope.

Lemma wall_wf : element_wf wall.
Proof.
  intros k e s Hk. unfold wall in Hk. simpl in Hk.
  apply lookup_singleton_Some in Hk as [<- <-].
  intros [= <-]. reflexivity.
Qed.

(** The transfer from the old [Counters] entity raises: the run ends with
    that error and the element still carries the entity. *)
Lemma old_entity_deleted_only_after_transfer_witness :
  Raise (HostError "requested type does not match the field") = Raise (A := ())
    (HostError "requested type does not match the field")
  ∧ wall = wall ∧ new_count_entity = new_count_entity
  ∧ entities wall !! GUID Counters_old = Some (GetEntity wall Counters_old).
Proof.
  refine (proj1 (proj2 (@old_entity_deleted_only_after_transfer demo_host
                          [Counters_old; Counters_new] wall new_count_entity true
                          (Raise (HostError "requested type does not match the field"))
                          wall new_count_entity wall_wf _))
                [] Counters_old [] wall new_count_entity
                (HostError "requested type does not match the field") new_count_entity
                _ _ _ _).
  - reflexivity.
  - reflexivity.
  - reflexivity.
  - reflexivity.
  - reflexivity.
Defined.

(** C1, as stated, fails: the body of the scope raises after setting
    [tags], and the element, which had no entity, carries the half-updated
    entity once the scope is left. *)
Lemma entity_stored_although_body_raised :
  ∃ self',
    @with_BaseSchema demo_host [Metadata_new] tags_scope (@interrupted_body demo_host)
    = (Raise (ValueError "interrupted"), self')
    ∧ entities (element tags_scope) !! 2%N = None
    ∧ entities (element self') !! 2%N
      = Some {| Schema := Some Metadata_new;
                stored := {[ "tags" := VNetList String_ [VStr "draft"] ]} |}.
Proof. eexists. split; [reflexivity|]. split; reflexivity. Qed.

Lemma scope_exit_stores_on_every_path_witness :
  ∃ self3,
    @with_BaseSchema demo_host [Metadata_new] tags_scope (@interrupted_body demo_host)
    = (Raise (ValueError "interrupted"), self3)
    ∧ _wrapped self3
      = {| Schema := Some Metadata_new;
           stored := {[ "tags" := VNetList String_ [VStr "draft"] ]} |}
    ∧ entities (element self3) !! GUID Metadata_new
      = Some {| Schema := Some Metadata_new;
                stored := {[ "tags" := VNetList String_ [VStr "draft"] ]} |}.
Proof.
  refine (@scope_exit_stores_on_every_path demo_host [Metadata_new] tags_scope
            (@interrupted_body demo_host) tags_scope (Raise (ValueError "interrupted"))
            {| element := bare_wall; update := true;
               _wrapped := {| Schema := Some Metadata_new;
                              stored := {[ "tags" := VNetList String_ [VStr "draft"] ]} |} |}
            Metadata_new _ _ _ _).
  - reflexivity.
  - reflexivity.
  - reflexivity.
  - reflexivity.
Defined.

(** * Further properties of the library *)

Section TypeResolution.
Context `{Host}.

Lemma bind_Ok {A B} (r : Result A) (k : A → Result B) b :
  bind r k = Ok b → ∃ a, r = Ok a ∧ k a = Ok b.
Proof. destruct r as [a|e]; simpl; [eauto|discriminate]. Qed.

Lemma dict_get_elem_of {V} (d : list (string * V)) k v :
  dict_get d k = Some v → (k, v) ∈ d.
Proof.
  induction d as [|[k' v'] d IH]; simpl; [discriminate|].
  case_bool_decide as Hk.
  - intros [= <-]. subst k'. left.
  - intros Hget. right. exact (IH Hget).
Qed.

Lemma dict_get_values {V} (d : list (string * V)) k v :
  dict_get d k = Some v → v ∈ d.*2.
Proof.
  intros Hget. apply dict_get_elem_of in Hget.
  apply list_elem_of_fmap. exists (k, v). split; [reflexivity|exact Hget].
Qed.

Lemma key_names_are_value_names k t :
  dict_get ALLOWED_KEY_TYPES k = Some t → dict_get ALLOWED_VALUE_TYPES k = Some t.
Proof.
  intros Hget. apply dict_get_elem_of, list_elem_of_In in Hget. simpl in Hget.
  repeat (destruct Hget as [[= <- <-]|Hget]; [reflexivity|]). destruct Hget.
Qed.

Lemma in_values_Some d allowed t :
  in_values d allowed = Some t → type_object d = Some t ∧ t ∈ allowed.*2.
Proof.
  unfold in_values. destruct (type_object d) as [t'|]; [|discriminate].
  case_bool_decide; [|discriminate]. intros [= <-]. auto.
Qed.

Lemma in_values_allowed d allowed t :
  type_object d = Some t → t ∈ allowed.*2 → in_values d allowed = Some t.
Proof.
  intros Hd Hin. unfold in_values. rewrite Hd.
  rewrite bool_decide_eq_true_2 by exact Hin. reflexivity.
Qed.

Lemma is_builtin_type_object d b :
  is_builtin d b = true → type_object d = Some (builtin_type b).
Proof. unfold is_builtin. apply bool_decide_eq_true_1. Qed.

(** What [resolve_type] can return, and from what. *)
Lemma resolve_type_Ok d allowed t :
  resolve_type d allowed = Ok t →
  (type_object d = Some t ∧ t ∈ allowed.*2)
  ∨ (∃ b, is_builtin d b = true ∧ t = builtin_type b)
  ∨ (∃ s, d = PyStr s ∧ dict_get allowed s = Some t).
Proof.
  unfold resolve_type.
  destruct (in_values d allowed) as [t'|] eqn:Hin.
  - intros [= <-]. left. exact (in_values_Some _ _ _ Hin).
  - destruct (is_builtin d py_int) eqn:Hint;
      [intros [= <-]; right; left; exists py_int; auto|].
    destruct (is_builtin d py_float) eqn:Hfloat;
      [intros [= <-]; right; left; exists py_float; auto|].
    destruct (is_builtin d py_bool) eqn:Hbool;
      [intros [= <-]; right; left; exists py_bool; auto|].
    destruct (is_builtin d py_str) eqn:Hstr;
      [intros [= <-]; right; left; exists py_str; auto|].
    destruct d; try discriminate.
    destruct (dict_get allowed s) eqn:Hget; [|discriminate].
    intros [= <-]. right. right. eauto.
Qed.

Lemma builtin_type_value_allowed b : builtin_type b ∈ ALLOWED_VALUE_TYPES.*2.
Proof. apply list_elem_of_In. destruct b; simpl; tauto. Qed.

Lemma resolve_type_value_allowed d t :
  resolve_type d ALLOWED_VALUE_TYPES = Ok t → t ∈ ALLOWED_VALUE_TYPES.*2.
Proof.
  intros Hres.
  apply resolve_type_Ok in Hres as [[_ Hin]|[(b & _ & ->)|(s & _ & Hget)]].
  - exact Hin.
  - apply builtin_type_value_allowed.
  - exact (dict_get_values _ _ _ Hget).
Qed.

(** X1: resolving a value type returns one of the allowed value types, and
    resolving the returned type again returns it unchanged. *)
Theorem resolve_value_type_allowed_and_stable d t :
  resolve_type d ALLOWED_VALUE_TYPES = Ok t →
  t ∈ ALLOWED_VALUE_TYPES.*2
  ∧ resolve_type (PyNetType t) ALLOWED_VALUE_TYPES = Ok t.
Proof.
  intros Hres. pose proof (resolve_type_value_allowed _ _ Hres) as Hin.
  split; [exact Hin|]. unfold resolve_type.
  rewrite (in_values_allowed (PyNetType t) _ t eq_refl Hin). reflexivity.
Qed.

(** X2: whatever resolves as a key type resolves as a value type, to the
    same type. *)
Theorem resolve_key_type_also_value_type d t :
  resolve_type d ALLOWED_KEY_TYPES = Ok t →
  resolve_type d ALLOWED_VALUE_TYPES = Ok t.
Proof.
  intros Hres.
  apply resolve_type_Ok in Hres as [[Hd Hin]|[(b & Hb & ->)|(s & -> & Hget)]].
  - unfold resolve_type. rewrite (in_values_allowed _ _ _ Hd); [reflexivity|].
    apply list_elem_of_In in Hin. apply list_elem_of_In. simpl in *. tauto.
  - unfold resolve_type.
    rewrite (in_values_allowed _ _ _ (is_builtin_type_object _ _ Hb)
               (builtin_type_value_allowed b)).
    reflexivity.
  - unfold resolve_type, in_values, is_builtin. cbn [type_object].
    rewrite !bool_decide_eq_false_2 by done.
    rewrite (key_names_are_value_names _ _ Hget). reflexivity.
Qed.

(** X3: a key type resolution returns an allowed key type for every input
    but [float], which is [System.Double]: for that object, under either
    name, it returns [Double], which is no allowed key type. *)
Theorem resolve_key_type_allowed_unless_float d :
  (∀ t, resolve_type d ALLOWED_KEY_TYPES = Ok t →
        is_builtin d py_float = false →
        t ∈ ALLOWED_KEY_TYPES.*2)
  ∧ (is_builtin d py_float = true →
     resolve_type d ALLOWED_KEY_TYPES = Ok Double
     ∧ Double ∉ ALLOWED_KEY_TYPES.*2).
Proof.
  split.
  - intros t Hres Hfloat.
    apply resolve_type_Ok in Hres as [[_ Hin]|[(b & Hb & ->)|(s & _ & Hget)]].
    + exact Hin.
    + destruct b; try (apply list_elem_of_In; simpl; tauto). congruence.
    + exact (dict_get_values _ _ _ Hget).
  - intros Hfloat. apply is_builtin_type_object in Hfloat.
    assert (Hnot : Double ∉ ALLOWED_KEY_TYPES.*2).
    { intros Hin. apply list_elem_of_In in Hin. simpl in Hin.
      repeat (destruct Hin as [Hin|Hin]; [discriminate Hin|]). exact Hin. }
    split; [|exact Hnot].
    simpl in Hfloat. unfold resolve_type, in_values, is_builtin. rewrite Hfloat.
    cbv beta iota. rewrite (bool_decide_eq_false_2 _ Hnot). reflexivity.
Qed.

End TypeResolution.

Lemma resolve_value_type_allowed_and_stable_witness :
  Double ∈ ALLOWED_VALUE_TYPES.*2
  ∧ resolve_type (PyNetType Double) ALLOWED_VALUE_TYPES = Ok Double.
Proof.
  refine (resolve_value_type_allowed_and_stable (PyStr "double") Double _).
  reflexivity.
Defined.

Lemma resolve_key_type_also_value_type_witness :
  resolve_type (PyStr "element_id") ALLOWED_VALUE_TYPES = Ok ElementId.
Proof.
  refine (resolve_key_type_also_value_type (PyStr "element_id") ElementId _).
  reflexivity.
Defined.

Lemma resolve_key_type_allowed_unless_float_witness :
  String_ ∈ ALLOWED_KEY_TYPES.*2
  ∧ resolve_type (PyNetType Double) ALLOWED_KEY_TYPES = Ok Double.
Proof.
  split.
  - refine (proj1 (resolve_key_type_allowed_unless_float (PyBuiltin py_str)) String_ _ _);
      reflexivity.
  - refine (proj1 (proj2 (resolve_key_type_allowed_unless_float (PyNetType Double)) _)).
    reflexivity.
Defined.

Section Descriptors.
Context `{Host}.

(** What a successful [FieldDescriptor.__init__] has checked and stored. *)
Lemma FieldDescriptor_init_Ok n ct vt kt doc spec guid fd :
  FieldDescriptor_init n ct vt kt doc spec guid = Ok fd →
  name fd = n ∧ documentation fd = doc
  ∧ ct = PyContainerType (container_type fd)
  ∧ resolve_type vt ALLOWED_VALUE_TYPES = Ok (value_type fd)
  ∧ (if bool_decide (container_type fd = Map)
     then ∃ t, resolve_type kt ALLOWED_KEY_TYPES = Ok t ∧ key_type fd = PyNetType t
     else key_type fd = kt)
  ∧ (if bool_decide (vt = PyNetType EntityType)
     then truthy guid = true
          ∧ match guid with
            | PyStr s => ∃ g, Guid_parse s = Some g ∧ sub_schema_guid fd = PyGuid g
            | _ => sub_schema_guid fd = guid
            end
     else sub_schema_guid fd = guid).
Proof.
  unfold FieldDescriptor_init.
  destruct ct as [| | | | | |c| | |]; simpl; try discriminate.
  intros Hinit.
  apply bind_Ok in Hinit as (vt' & Hvt & Hinit).
  apply bind_Ok in Hinit as (kt' & Hkt & Hinit).
  apply bind_Ok in Hinit as (spec' & Hspec & Hinit).
  apply bind_Ok in Hinit as (sub' & Hsub & Hinit).
  injection Hinit as <-. simpl.
  split; [reflexivity|]. split; [reflexivity|]. split; [reflexivity|].
  split; [exact Hvt|]. split.
  - destruct (bool_decide (c = Map)).
    + destruct (bool_decide (kt = PyNone)); [discriminate|].
      apply bind_Ok in Hkt as (t & Ht & [= <-]). eauto.
    + injection Hkt as <-. reflexivity.
  - destruct (bool_decide (vt = PyNetType EntityType)).
    + destruct (truthy guid); [|discriminate]. split; [reflexivity|].
      destruct guid; simpl in Hsub; try (injection Hsub as <-; reflexivity).
      apply bind_Ok in Hsub as (g & Hg & [= <-]). exists g. split; [|reflexivity].
      unfold System_Guid in Hg. destruct (Guid_parse s); [|discriminate].
      injection Hg as <-. reflexivity.
    + injection Hsub as <-. reflexivity.
Qed.

(** X4: a descriptor that [map_field] returns is a [Map] whose key type is
    the resolved key type, a type object, and whose value type is one of the
    allowed value types. *)
Theorem map_field_descriptor k v spec guid n doc fd :
  map_field k v spec guid n doc = Ok fd →
  name fd = n ∧ container_type fd = Map
  ∧ (∃ t, resolve_type k ALLOWED_KEY_TYPES = Ok t ∧ key_type fd = PyNetType t)
  ∧ value_type fd ∈ ALLOWED_VALUE_TYPES.*2.
Proof.
  unfold map_field, schema_field. intros Hinit.
  apply FieldDescriptor_init_Ok in Hinit as (Hn & _ & Hc & Hv & Hk & _).
  injection Hc as Hc. rewrite <- Hc in Hk. simpl in Hk.
  split; [exact Hn|]. split; [symmetry; exact Hc|]. split; [exact Hk|].
  exact (resolve_type_value_allowed _ _ Hv).
Qed.

(** X5: a descriptor that [simple_field] or [array_field] returns has that
    container, no key type, and an allowed value type. *)
Theorem simple_and_array_field_descriptor c v spec guid n doc fd :
  (c = Simple ∧ simple_field v spec guid n doc = Ok fd)
  ∨ (c = Array ∧ array_field v spec guid n doc = Ok fd) →
  name fd = n ∧ container_type fd = c ∧ key_type fd = PyNone
  ∧ value_type fd ∈ ALLOWED_VALUE_TYPES.*2.
Proof.
  unfold simple_field, array_field, schema_field.
  intros [[-> Hinit]|[-> Hinit]];
    apply FieldDescriptor_init_Ok in Hinit as (Hn & _ & Hc & Hv & Hk & _);
    injection Hc as Hc; rewrite <- Hc in Hk; simpl in Hk;
    (split; [exact Hn|]); (split; [symmetry; exact Hc|]); (split; [exact Hk|]);
    exact (resolve_type_value_allowed _ _ Hv).
Qed.

(** X6: adding a field from a descriptor the constructor accepted fails only
    where the host rejects the field; a [Map] descriptor always brings the
    key type the host call needs, other descriptors pass none. *)
Theorem constructed_descriptor_add_field n ct vt kt doc spec guid fd sb :
  FieldDescriptor_init n ct vt kt doc spec guid = Ok fd →
  (∃ fb, _add_field sb fd = Ok fb
         ∧ fb_name fb = n ∧ fb_container fb = container_type fd
         ∧ fb_value_type fb = value_type fd
         ∧ (fb_key_type fb = None ↔ container_type fd ≠ Map))
  ∨ _add_field sb fd = Raise (HostError "Add field rejected").
Proof.
  intros Hinit. apply FieldDescriptor_init_Ok in Hinit as (Hn & _ & _ & _ & Hk & _).
  unfold _add_field, AddField. rewrite Hn.
  destruct (container_type fd); simpl in Hk;
    try destruct Hk as (t & _ & ->);
    (destruct (AddField_accepts _ _); [left|right; reflexivity]);
    eexists; (split; [reflexivity|]); simpl; repeat split; done.
Qed.

(** X7: a field declared with the type object [ES.Entity] is accepted only
    with a sub-schema GUID; a GUID given as a string is parsed, and the
    descriptor holds the GUID object, never the string. *)
Theorem entity_field_sub_schema_guid n ct kt doc spec guid fd :
  FieldDescriptor_init n ct (PyNetType EntityType) kt doc spec guid = Ok fd →
  value_type fd = EntityType
  ∧ truthy guid = true
  ∧ (∀ s, sub_schema_guid fd ≠ PyStr s)
  ∧ (∀ s, guid = PyStr s → ∃ g, Guid_parse s = Some g ∧ sub_schema_guid fd = PyGuid g)
  ∧ (∀ g, guid = PyGuid g → sub_schema_guid fd = PyGuid g).
Proof.
  intros Hinit. apply FieldDescriptor_init_Ok in Hinit as (_ & _ & _ & Hv & _ & Hg).
  rewrite bool_decide_eq_true_2 in Hg by reflexivity. destruct Hg as [Htruthy Hsub].
  split; [injection Hv as <-; reflexivity|]. split; [exact Htruthy|]. split; [|split].
  - intros s. destruct guid; try (rewrite Hsub; discriminate).
    destruct Hsub as (g & _ & ->). discriminate.
  - intros s ->. exact Hsub.
  - intros g ->. exact Hsub.
Qed.

End Descriptors.

Lemma map_field_descriptor_witness :
  ∃ t, resolve_type (PyStr "string") ALLOWED_KEY_TYPES = Ok t
       ∧ PyNetType String_ = PyNetType t.
Proof.
  refine (proj1 (proj2 (proj2
            (@map_field_descriptor demo_host (PyStr "string") (PyBuiltin py_int) PyNone
               PyNone "labels" PyNone
               {| name := "labels"; documentation := PyNone; container_type := Map;
                  value_type := Int32; key_type := PyNetType String_;
                  spec_type_id := None; sub_schema_guid := PyNone |} _)))).
  reflexivity.
Defined.

Lemma simple_and_array_field_descriptor_witness :
  "tags" = "tags" ∧ Array = Array ∧ PyNone = PyNone
  ∧ String_ ∈ ALLOWED_VALUE_TYPES.*2.
Proof.
  refine (@simple_and_array_field_descriptor demo_host Array (PyStr "string") PyNone PyNone
            "tags" PyNone
            {| name := "tags"; documentation := PyNone; container_type := Array;
               value_type := String_; key_type := PyNone;
               spec_type_id := None; sub_schema_guid := PyNone |} _).
  right. split; reflexivity.
Defined.

Lemma constructed_descriptor_add_field_witness :
  (∃ fb, @_add_field demo_host
           {| sb_guid := 1%N; sb_name := None; sb_documentation := PyNone;
              sb_read_access := Public; sb_write_access := Public;
              sb_vendor_id := None; sb_application_guid := None; sb_fields := [] |}
           (int32_field "count") = Ok fb
         ∧ fb_name fb = "count" ∧ fb_container fb = Simple
         ∧ fb_value_type fb = Int32
         ∧ (fb_key_type fb = None ↔ Simple ≠ Map))
  ∨ @_add_field demo_host
      {| sb_guid := 1%N; sb_name := None; sb_documentation := PyNone;
         sb_read_access := Public; sb_write_access := Public;
         sb_vendor_id := None; sb_application_guid := None; sb_fields := [] |}
      (int32_field "count") = Raise (HostError "Add field rejected").
Proof.
  refine (@constructed_descriptor_add_field demo_host "count" (PyContainerType Simple)
            (PyStr "int32") PyNone PyNone PyNone PyNone (int32_field "count") _ _).
  reflexivity.
Defined.

Lemma entity_field_sub_schema_guid_witness :
  ∃ g, @Guid_parse demo_host "G3" = Some g ∧ PyGuid 3%N = PyGuid g.
Proof.
  refine (proj1 (proj2 (proj2 (proj2
            (@entity_field_sub_schema_guid demo_host "child" (PyContainerType Simple) PyNone
               PyNone PyNone (PyStr "G3")
               {| name := "child"; documentation := PyNone; container_type := Simple;
                  value_type := EntityType; key_type := PyNone;
                  spec_type_id := None; sub_schema_guid := PyGuid 3%N |} _)))) "G3" _).
  - reflexivity.
  - reflexivity.
Defined.

Section Builders.
Context `{Host}.

Lemma add_field_Ok sb fd sb' :
  add_field sb fd = Ok sb' →
  AcceptableName (name fd) = true
  ∧ ∃ fb, sb' = with_field sb fb ∧ built_from fb fd ∧ keyed_iff_map fb
          ∧ (fb_spec fb = None
             ∨ fb_spec fb = Some (default SpecTypeId_Number (spec_type_id fd)))
          ∧ (fb_sub_schema_guid fb = None
             ∨ ∃ g, sub_schema_guid fd = PyGuid g ∧ fb_sub_schema_guid fb = Some g)
          ∧ match container_type fd with
            | Map => ∃ kt, key_type fd = PyNetType kt ∧ fb_key_type fb = Some kt
            | _ => fb_key_type fb = None
            end.
Proof.
  unfold add_field. destruct (AcceptableName (name fd)); simpl; [|discriminate].
  intros Hadd. split; [reflexivity|].
  apply bind_Ok in Hadd as (fb0 & Hfb0 & Hadd).
  unfold set_field_documentation in Hadd. cbn [bind] in Hadd.
  apply bind_Ok in Hadd as (fb2 & Hfb2 & Hadd).
  apply bind_Ok in Hadd as (fb3 & Hfb3 & Hadd).
  injection Hadd as Hadd. subst sb'.
  exists fb3. split; [reflexivity|].
  assert (Hfb : fb_name fb0 = name fd ∧ fb_container fb0 = container_type fd
                ∧ fb_value_type fb0 = value_type fd ∧ keyed_iff_map fb0
                ∧ fb_spec fb0 = None ∧ fb_sub_schema_guid fb0 = None
                ∧ match container_type fd with
                  | Map => ∃ kt, key_type fd = PyNetType kt ∧ fb_key_type fb0 = Some kt
                  | _ => fb_key_type fb0 = None
                  end).
  { unfold _add_field, AddField in Hfb0.
    destruct (container_type fd); try destruct (key_type fd); try discriminate;
      destruct (AddField_accepts _ _); try discriminate;
      injection Hfb0 as <-; unfold keyed_iff_map; simpl;
      repeat split; try done; eauto. }
  destruct Hfb as (Hn & Hc & Hv & Hk & Hs & Hg & Hkey).
  assert (Hkey3 : fb_key_type fb3 = fb_key_type fb0).
  { unfold set_field_spec_type_id in Hfb2. unfold set_sub_schema_guid in Hfb3.
    destruct (NeedsUnits _); [destruct (SetSpec_accepts _ _); [|discriminate]|];
      injection Hfb2 as <-;
      (destruct (NeedsSubSchemaGUID _);
       [destruct (sub_schema_guid fd); try discriminate;
        destruct (SetSubSchemaGUID_accepts _ _); [|discriminate]|]);
      injection Hfb3 as <-; reflexivity. }
  rewrite Hkey3.
  unfold set_field_spec_type_id in Hfb2. unfold set_sub_schema_guid in Hfb3.
  destruct (NeedsUnits _); [destruct (SetSpec_accepts _ _); [|discriminate]|];
    injection Hfb2 as <-;
    (destruct (NeedsSubSchemaGUID _);
     [destruct (sub_schema_guid fd) eqn:Hsub; try discriminate;
      destruct (SetSubSchemaGUID_accepts _ _); [|discriminate]|]);
    injection Hfb3 as <-; unfold built_from, keyed_iff_map in *; simpl in *;
    repeat split; try tauto; eauto.
Qed.

(** X8: a successful [add_field] leaves the builder as it was but for one
    field appended at the end, with the descriptor's name, container, value
    type and documentation, and with the descriptor's key type for a [Map]
    and none otherwise; the field's spec is left unset or is the
    descriptor's, [SpecTypeId.Number] by default, and its sub-schema GUID is
    left unset or is the descriptor's GUID object. *)
Theorem add_field_appends_one_field sb fd sb' :
  add_field sb fd = Ok sb' →
  builder_settings sb' = builder_settings sb
  ∧ ∃ fb, sb_fields sb' = (sb_fields sb ++ [fb])%list
          ∧ built_from fb fd ∧ keyed_iff_map fb
          ∧ (fb_spec fb = None
             ∨ fb_spec fb = Some (default SpecTypeId_Number (spec_type_id fd)))
          ∧ (fb_sub_schema_guid fb = None
             ∨ ∃ g, sub_schema_guid fd = PyGuid g ∧ fb_sub_schema_guid fb = Some g)
          ∧ match container_type fd with
            | Map => ∃ kt, key_type fd = PyNetType kt ∧ fb_key_type fb = Some kt
            | _ => fb_key_type fb = None
            end.
Proof.
  intros Hadd. apply add_field_Ok in Hadd as (_ & fb & -> & Hfb).
  split; [reflexivity|]. exists fb. split; [reflexivity|exact Hfb].
Qed.



Lemma initialize_schema_Ok guid schema_name doc ra wa vendor app sb :
  initialize_schema guid schema_name doc ra wa vendor app = Ok sb →
  guid = PyGuid (sb_guid sb) ∧ GUIDIsValid (sb_guid sb) = true
  ∧ (∃ n, schema_name = PyStr n ∧ sb_name sb = Some n ∧ AcceptableName n = true)
  ∧ sb_documentation sb = doc
  ∧ ra = PyAccessLevel (sb_read_access sb)
  ∧ wa = PyAccessLevel (sb_write_access sb)
  ∧ ((vendor = PyNone ∧ sb_vendor_id sb = None)
     ∨ ∃ v, vendor = PyStr v ∧ VendorIdIsValid v = true ∧ sb_vendor_id sb = Some v)
  ∧ ((app = PyNone ∧ sb_application_guid sb = None)
     ∨ ∃ g, GUIDIsValid g = true ∧ sb_application_guid sb = Some g
            ∧ (app = PyGuid g ∨ ∃ a, app = PyStr a ∧ Guid_parse a = Some g))
  ∧ sb_fields sb = [].
Proof.
  unfold initialize_schema. intros Hinit.
  apply bind_Ok in Hinit as (sb0 & H0 & Hinit).
  unfold _create_schema_builder, as_guid in H0.
  destruct guid; try discriminate. simpl in H0.
  destruct (GUIDIsValid g) eqn:Hg; [|discriminate]. injection H0 as <-.
  apply bind_Ok in Hinit as (sb1 & H1 & Hinit).
  unfold _set_schema_name in H1. destruct schema_name; try discriminate.
  destruct (AcceptableName s) eqn:Hs; [|discriminate]. injection H1 as <-.
  unfold _set_schema_documentation in Hinit. cbn [bind] in Hinit.
  apply bind_Ok in Hinit as (sb3 & H3 & Hinit).
  unfold _set_access_levels in H3. destruct ra; try discriminate.
  destruct wa; try discriminate. injection H3 as <-.
  apply bind_Ok in Hinit as (sb4 & H4 & Hinit). injection Hinit as <-.
  unfold _set_optional_properties in H4.
  apply bind_Ok in H4 as (sbv & Hv & Happ).
  assert (Hvendor : builder_settings sbv
                    = (g, Some s, doc, a, a0, sb_vendor_id sbv, None)
                    ∧ sb_fields sbv = []
                    ∧ ((vendor = PyNone ∧ sb_vendor_id sbv = None)
                       ∨ ∃ v, vendor = PyStr v ∧ VendorIdIsValid v = true
                              ∧ sb_vendor_id sbv = Some v)).
  { destruct vendor; try discriminate.
    - injection Hv as <-. simpl. auto.
    - simpl in Hv. destruct (VendorIdIsValid s0) eqn:Hvalid; [|discriminate].
      injection Hv as <-. simpl. eauto 10. }
  destruct Hvendor as (Hset & Hfields & Hvendor). injection Hset as Hg' Hn Hd Hr Hw Ha.
  assert (Happ' : builder_settings sb4
                  = (g, Some s, doc, a, a0, sb_vendor_id sbv, sb_application_guid sb4)
                  ∧ sb_fields sb4 = []
                  ∧ ((app = PyNone ∧ sb_application_guid sb4 = None)
                     ∨ ∃ g0, GUIDIsValid g0 = true ∧ sb_application_guid sb4 = Some g0
                             ∧ (app = PyGuid g0
                                ∨ ∃ a1, app = PyStr a1 ∧ Guid_parse a1 = Some g0))).
  { destruct app; try discriminate.
    - injection Happ as <-. unfold builder_settings. rewrite Hg', Hn, Hd, Hr, Hw, Ha. auto.
    - apply bind_Ok in Happ as (g0 & Hparse & Happ).
      unfold System_Guid in Hparse. destruct (Guid_parse s0) eqn:Hp; [|discriminate].
      injection Hparse as ->. destruct (GUIDIsValid g0) eqn:Hvalid; [|discriminate].
      injection Happ as <-. unfold builder_settings. simpl.
      rewrite Hg', Hn, Hd, Hr, Hw. eauto 10.
    - apply bind_Ok in Happ as (g1 & [= <-] & Happ).
      destruct (GUIDIsValid g0) eqn:Hvalid; [|discriminate].
      injection Happ as <-. unfold builder_settings. simpl.
      rewrite Hg', Hn, Hd, Hr, Hw. eauto 10. }
  destruct Happ' as (Hset & Hfields' & Happ'). injection Hset as -> -> -> -> -> ->.
  repeat split; eauto.
Qed.

(** X9: the builder [initialize_schema] returns holds what was declared,
    all of it validated: the GUID and the name the host accepts, the
    documentation, both access levels, the vendor id and the application
    GUID when given, and no field yet. *)
Theorem initialize_schema_records_declaration guid schema_name doc ra wa vendor app sb :
  initialize_schema guid schema_name doc ra wa vendor app = Ok sb →
  guid = PyGuid (sb_guid sb) ∧ GUIDIsValid (sb_guid sb) = true
  ∧ (∃ n, schema_name = PyStr n ∧ sb_name sb = Some n ∧ AcceptableName n = true)
  ∧ sb_documentation sb = doc
  ∧ ra = PyAccessLevel (sb_read_access sb)
  ∧ wa = PyAccessLevel (sb_write_access sb)
  ∧ ((vendor = PyNone ∧ sb_vendor_id sb = None)
     ∨ ∃ v, vendor = PyStr v ∧ VendorIdIsValid v = true ∧ sb_vendor_id sb = Some v)
  ∧ ((app = PyNone ∧ sb_application_guid sb = None)
     ∨ ∃ g, GUIDIsValid g = true ∧ sb_application_guid sb = Some g
            ∧ (app = PyGuid g ∨ ∃ a, app = PyStr a ∧ Guid_parse a = Some g))
  ∧ sb_fields sb = [].
Proof. apply initialize_schema_Ok. Qed.

End Builders.

Lemma add_field_appends_one_field_witness :
  ∃ fb, sb_fields
          {| sb_guid := 1%N; sb_name := Some "Base"; sb_documentation := PyNone;
             sb_read_access := Public; sb_write_access := Public;
             sb_vendor_id := None; sb_application_guid := None;
             sb_fields := [{| fb_name := "labels"; fb_container := Map;
                              fb_value_type := Int32; fb_key_type := Some String_;
                              fb_documentation := PyNone; fb_spec := None;
                              fb_sub_schema_guid := None |}] |}
        = ([] ++ [fb])%list
        ∧ built_from fb labels_field ∧ keyed_iff_map fb
        ∧ (fb_spec fb = None
           ∨ fb_spec fb
             = Some (default (@SpecTypeId_Number demo_host) (spec_type_id labels_field)))
        ∧ (fb_sub_schema_guid fb = None
           ∨ ∃ g, sub_schema_guid labels_field = PyGuid g
                  ∧ fb_sub_schema_guid fb = Some g)
        ∧ ∃ kt, key_type labels_field = PyNetType kt ∧ fb_key_type fb = Some kt.
Proof.
  refine (proj2 (@add_field_appends_one_field demo_host
                   {| sb_guid := 1%N; sb_name := Some "Base"; sb_documentation := PyNone;
                      sb_read_access := Public; sb_write_access := Public;
                      sb_vendor_id := None; sb_application_guid := None;
                      sb_fields := [] |}
                   labels_field _ _)).
  reflexivity.
Defined.

Lemma initialize_schema_records_declaration_witness :
  ∃ n, PyStr "Base" = PyStr n ∧ Some "Base" = Some n
       ∧ @AcceptableName demo_host n = true.
Proof.
  refine (proj1 (proj2 (proj2
            (@initialize_schema_records_declaration demo_host (PyGuid 1%N) (PyStr "Base")
               PyNone (PyAccessLevel Public) (PyAccessLevel Vendor) (PyStr "ADSK") PyNone
               {| sb_guid := 1%N; sb_name := Some "Base"; sb_documentation := PyNone;
                  sb_read_access := Public; sb_write_access := Vendor;
                  sb_vendor_id := Some "ADSK"; sb_application_guid := None;
                  sb_fields := [] |} _)))).
  reflexivity.
Defined.

Section Schemas.
Context `{Host}.

Lemma built_from_names fbs fds :
  Forall2 built_from fbs fds → fb_name <$> fbs = name <$> fds.
Proof.
  induction 1 as [|fb fd fbs fds Hfb _ IH]; [reflexivity|].
  rewrite !fmap_cons, IH. destruct Hfb as [-> _]. reflexivity.
Qed.




Lemma SchemaMeta_new_Ok registry name_ bases attrs cls :
  name_ ≠ "BaseSchema" →
  SchemaMeta_new registry name_ bases attrs = Ok cls →
  ∃ g, ((dict_get attrs "guid" = Some (AttrObj (PyGuid g)))
        ∨ ∃ s, s ≠ "" ∧ dict_get attrs "guid" = Some (AttrObj (PyStr s))
               ∧ Guid_parse s = Some g)
       ∧ cls = mkClass name_
                       (dict_set (dict_set attrs "guid" (AttrObj (PyGuid g)))
                                 "schema_name" (AttrObj (PyStr name_)))
                       (Some (Lookup registry g)) bases.
Proof.
  intros Hname. unfold SchemaMeta_new.
  rewrite bool_decide_eq_false_2 by exact Hname. intros Hnew.
  apply bind_Ok in Hnew as (guid & Hguid & Hnew).
  apply bind_Ok in Hnew as (found & Hfound & [= <-]).
  destruct guid as [o|fd]; [|discriminate].
  apply bind_Ok in Hfound as (g & Hg & [= <-]).
  destruct o; try discriminate. injection Hg as ->.
  exists g. split; [|reflexivity].
  unfold _validate_guid in Hguid.
  destruct (dict_get attrs "guid") as [[o|fd]|]; try discriminate.
  destruct (truthy o) eqn:Htruthy; [|discriminate]. simpl in Hguid.
  destruct o; try discriminate.
  - right. apply bind_Ok in Hguid as (g' & Hparse & [= ->]).
    unfold System_Guid in Hparse. destruct (Guid_parse s) eqn:Hp; [|discriminate].
    injection Hparse as ->. exists s. split; [|auto].
    intros ->. discriminate Htruthy.
  - left. injection Hguid as ->. reflexivity.
Qed.

(** X11: a class the metaclass creates has the class name as its
    [schema_name], whatever its body says, a GUID object as its [guid], the
    host's schema of that GUID, if any, as its [_schema], and every other
    attribute as the class body gave it. *)
Theorem SchemaMeta_new_attributes registry name_ bases attrs cls :
  name_ ≠ "BaseSchema" →
  SchemaMeta_new registry name_ bases attrs = Ok cls →
  cls_name cls = name_
  ∧ dict_get (cls_dict cls) "schema_name" = Some (AttrObj (PyStr name_))
  ∧ (∃ g, dict_get (cls_dict cls) "guid" = Some (AttrObj (PyGuid g))
          ∧ _schema cls = Some (Lookup registry g))
  ∧ (∀ k, k ≠ "guid" → k ≠ "schema_name" →
          dict_get (cls_dict cls) k = dict_get attrs k)
  ∧ cls_bases cls = bases.
Proof.
  intros Hname Hnew.
  destruct (SchemaMeta_new_Ok _ _ _ _ _ Hname Hnew) as (g & _ & ->). simpl.
  split; [reflexivity|]. split; [apply dict_get_set_eq|]. split; [|split; [|reflexivity]].
  - exists g. split; [|reflexivity].
    rewrite dict_get_set_ne by discriminate. apply dict_get_set_eq.
  - intros k Hg Hs. rewrite !dict_get_set_ne by congruence. reflexivity.
Qed.

(** X12: the metaclass accepts a class exactly when its body gives [guid]
    as a GUID object or as a non-empty string that parses as a GUID. *)
Theorem SchemaMeta_new_accepts registry name_ bases attrs :
  name_ ≠ "BaseSchema" →
  is_ok (SchemaMeta_new registry name_ bases attrs) = true
  ↔ (∃ g, dict_get attrs "guid" = Some (AttrObj (PyGuid g)))
    ∨ (∃ s g, s ≠ "" ∧ dict_get attrs "guid" = Some (AttrObj (PyStr s))
              ∧ Guid_parse s = Some g).
Proof.
  intros Hname. split.
  - destruct (SchemaMeta_new registry name_ bases attrs) as [cls|] eqn:Hnew; [|discriminate].
    intros _. destruct (SchemaMeta_new_Ok _ _ _ _ _ Hname Hnew) as (g & [Hg|(s & Hs)] & _);
      [left|right]; eauto.
  - unfold SchemaMeta_new. rewrite bool_decide_eq_false_2 by exact Hname.
    intros [(g & ->)|(s & g & Hs & -> & Hp)]; simpl; [reflexivity|].
    rewrite bool_decide_eq_false_2 by exact Hs. simpl.
    unfold System_Guid. rewrite Hp. reflexivity.
Qed.

Lemma Lookup_app_new registry s :
  Lookup registry (GUID s) = None → Lookup (registry ++ [s]) (GUID s) = Some s.
Proof.
  unfold Lookup. induction registry as [|s0 registry IH]; simpl.
  - rewrite bool_decide_eq_true_2; reflexivity.
  - destruct (bool_decide (GUID s0 = GUID s)); [discriminate|exact IH].
Qed.

(** X13: once a class has built its schema under a GUID the registry did
    not hold, a class declared afterwards with that GUID is bound to the
    built schema, and its requests return it without building. *)
Theorem class_declared_after_build_is_bound registry cls s registry' name_ bases attrs cls' n :
  build_schema registry cls = Ok (s, registry') →
  Lookup registry (GUID s) = None →
  name_ ≠ "BaseSchema" →
  dict_get attrs "guid" = Some (AttrObj (PyGuid (GUID s))) →
  SchemaMeta_new registry' name_ bases attrs = Ok cls' →
  _schema cls' = Some (Some s)
  ∧ request_schema n cls' registry' = (replicate n (Ok s), cls', registry')
  ∧ build_calls n cls' registry' = 0%nat.
Proof.
  intros Hbuild Hfresh Hname Hguid Hnew.
  apply build_schema_guid in Hbuild as [_ ->].
  destruct (SchemaMeta_new_Ok _ _ _ _ _ Hname Hnew) as (g & [Hg|(s0 & _ & Hg & _)] & Hcls);
    rewrite Hguid in Hg; [|discriminate].
  injection Hg as <-. rewrite (Lookup_app_new _ _ Hfresh) in Hcls.
  assert (Hs : _schema cls' = Some (Some s)) by (rewrite Hcls; reflexivity).
  split; [exact Hs|]. split.
  - apply request_schema_bound, Hs.
  - apply (build_calls_bound _ _ _ _ Hs).
Qed.

End Schemas.


Lemma SchemaMeta_new_attributes_witness :
  dict_get [("guid", AttrObj (PyGuid 1%N)); ("schema_name", AttrObj (PyStr "Base"))]
           "schema_name"
  = Some (AttrObj (PyStr "Base")).
Proof.
  refine (proj1 (proj2
            (@SchemaMeta_new_attributes demo_host [] "Base" [BaseSchema_class]
               [("guid", AttrObj (PyStr "G1")); ("schema_name", AttrObj (PyStr "Custom"))]
               (mkClass "Base"
                        [("guid", AttrObj (PyGuid 1%N));
                         ("schema_name", AttrObj (PyStr "Base"))]
                        (Some None) [BaseSchema_class]) _ _))).
  - discriminate.
  - reflexivity.
Defined.

Lemma SchemaMeta_new_accepts_witness :
  is_ok (@SchemaMeta_new demo_host [] "Base" [BaseSchema_class]
           [("guid", AttrObj (PyStr "G2"))]) = true.
Proof.
  refine (proj2 (@SchemaMeta_new_accepts demo_host [] "Base" [BaseSchema_class]
                   [("guid", AttrObj (PyStr "G2"))] _) _).
  - discriminate.
  - right. exists "G2", 2%N. split; [discriminate|]. split; reflexivity.
Defined.

Lemma class_declared_after_build_is_bound_witness :
  _schema (mkClass "Again"
                   [("guid", AttrObj (PyGuid 1%N)); ("schema_name", AttrObj (PyStr "Again"))]
                   (Some (Some (sample_schema 1%N "Base"
                                              [sample_field "a" Simple Int32 None])))
                   [BaseSchema_class])
  = Some (Some (sample_schema 1%N "Base" [sample_field "a" Simple Int32 None])).
Proof.
  refine (proj1 (@class_declared_after_build_is_bound demo_host [] sample_Base
                   (sample_schema 1%N "Base" [sample_field "a" Simple Int32 None])
                   [sample_schema 1%N "Base" [sample_field "a" Simple Int32 None]]
                   "Again" [BaseSchema_class] [("guid", AttrObj (PyGuid 1%N))]
                   (mkClass "Again"
                            [("guid", AttrObj (PyGuid 1%N));
                             ("schema_name", AttrObj (PyStr "Again"))]
                            (Some (Some (sample_schema 1%N "Base"
                                           [sample_field "a" Simple Int32 None])))
                            [BaseSchema_class])
                   3 _ _ _ _ _)).
  - reflexivity.
  - reflexivity.
  - discriminate.
  - reflexivity.
  - reflexivity.
Defined.

Section MigrationMore.
Context `{Host}.

Lemma list_similar_schemas_valid registry schema :
  ∃ schemas,
    list_similar_schemas registry (Some schema) = Ok schemas
    ∧ schemas `sublist_of` registry
    ∧ (∀ s, s ∈ schemas
            ↔ s ∈ registry ∧ SchemaName s = SchemaName schema ∧ GUID s ≠ GUID schema)
    ∧ schema ∉ schemas.
Proof.
  assert (Hspec : ∀ s,
    s ∈ List.filter (fun s => bool_decide (SchemaName s = SchemaName schema)
                              && negb (bool_decide (GUID s = GUID schema))) registry
    ↔ s ∈ registry ∧ SchemaName s = SchemaName schema ∧ GUID s ≠ GUID schema).
  { intros s. rewrite !list_elem_of_In, filter_In, andb_true_iff, negb_true_iff,
      bool_decide_eq_true, bool_decide_eq_false. tauto. }
  exists (List.filter (fun s => bool_decide (SchemaName s = SchemaName schema)
                                && negb (bool_decide (GUID s = GUID schema))) registry).
  split; [destruct registry; reflexivity|]. split; [|split; [exact Hspec|]].
  - clear Hspec. induction registry as [|s0 registry IH]; simpl; [constructor|].
    destruct (_ && _); [apply sublist_skip|apply sublist_cons]; exact IH.
  - intros Hin. apply Hspec in Hin as (_ & _ & Hne). apply Hne. reflexivity.
Qed.

(** X14: for the schema of a valid entity, [list_similar_schemas] returns,
    in registry order, exactly the registered schemas of the same name and
    another GUID, so never the schema itself; for an invalid entity it
    returns nothing on an empty registry and raises otherwise. *)
Theorem list_similar_schemas_spec registry schema :
  (∃ schemas,
     list_similar_schemas registry (Some schema) = Ok schemas
     ∧ schemas `sublist_of` registry
     ∧ (∀ s, s ∈ schemas
             ↔ s ∈ registry ∧ SchemaName s = SchemaName schema ∧ GUID s ≠ GUID schema)
     ∧ schema ∉ schemas)
  ∧ list_similar_schemas [] None = Ok []
  ∧ (registry ≠ [] → is_ok (list_similar_schemas registry None) = false).
Proof.
  split; [apply list_similar_schemas_valid|]. split; [reflexivity|].
  destruct registry; [done|reflexivity].
Qed.

Lemma transfer_fields_unmatched from_entity old_schema to_entity fields :
  Schema from_entity = Some old_schema →
  (∀ f, f ∈ fields →
        match GetField old_schema (FieldName f) with
        | None => True
        | Some old_field =>
            FieldContainerType f = Simple ∧ ValueType f ≠ ValueType old_field
        end) →
  transfer_fields from_entity fields to_entity = (Ok (), to_entity).
Proof.
  intros Hfrom. induction fields as [|field rest IH]; intros Hskip; [reflexivity|].
  simpl. rewrite Hfrom. simpl.
  assert (Hrest : transfer_fields from_entity rest to_entity = (Ok (), to_entity)).
  { apply IH. intros f Hf. apply Hskip. right. exact Hf. }
  pose proof (Hskip field ltac:(left)) as Hfield.
  destruct (GetField old_schema (FieldName field)) as [old_field|]; [|exact Hrest].
  destruct Hfield as [Hc Hne]. unfold determine_field_type. simpl. rewrite Hc. simpl.
  rewrite bool_decide_eq_false_2 by exact Hne. exact Hrest.
Qed.

(** X15: fields of the new schema that the old schema does not have, and
    simple fields whose value type differs from the old field's, are passed
    over: when every field is of these, the transfer returns without error
    and leaves the new entity as it was. *)
Theorem transfer_skips_unmatched_fields from_entity to_entity old_schema new_schema :
  Schema from_entity = Some old_schema →
  Schema to_entity = Some new_schema →
  (∀ f, f ∈ ListFields new_schema →
        match GetField old_schema (FieldName f) with
        | None => True
        | Some old_field =>
            FieldContainerType f = Simple ∧ ValueType f ≠ ValueType old_field
        end) →
  transfer_field_data from_entity to_entity = (Ok (), to_entity).
Proof.
  intros Hfrom Hto Hskip. unfold transfer_field_data. rewrite Hto. simpl.
  eapply transfer_fields_unmatched; eassumption.
Qed.

Lemma update_from_schemas_keep schemas : ∀ element entity r element' entity',
  update_from_schemas schemas element entity false = (r, element', entity') →
  element' = element.
Proof.
  induction schemas as [|schema rest IH]; intros element entity r element' entity'; simpl.
  - intros [= _ <- _]. reflexivity.
  - destruct (Schema (GetEntity element schema)) as [old_schema|]; [|apply IH].
    destruct (transfer_field_data _ entity) as [[u|e] entity1]; [apply IH|].
    intros [= _ <- _]. reflexivity.
Qed.

(** X16: with [remove_old] off, [update_schema_entities] leaves the
    element as it is, whatever the transfers do. *)
Theorem update_without_removal_keeps_element registry element entity r element' entity' :
  update_schema_entities registry element entity false = (r, element', entity') →
  element' = element.
Proof.
  unfold update_schema_entities.
  destruct (list_similar_schemas registry (Schema entity)) as [schemas|e].
  - apply update_from_schemas_keep.
  - intros [= _ <- _]. reflexivity.
Qed.

Lemma update_from_schemas_Name schemas : ∀ element entity remove_old r element' entity',
  update_from_schemas schemas element entity remove_old = (r, element', entity') →
  Name element' = Name element.
Proof.
  induction schemas as [|schema rest IH];
    intros element entity remove_old r element' entity'; simpl.
  - intros [= _ <- _]. reflexivity.
  - destruct (Schema (GetEntity element schema)) as [old_schema|]; [|apply IH].
    destruct (transfer_field_data _ entity) as [[u|e] entity1].
    + destruct remove_old; simpl; intros Hrest; apply IH in Hrest; exact Hrest.
    + intros [= _ <- _]. reflexivity.
Qed.

Lemma update_schema_entities_run registry element entity remove_old r element' entity' :
  update_schema_entities registry element entity remove_old = (r, element', entity') →
  (element' = element ∧ is_ok (list_similar_schemas registry (Schema entity)) = false)
  ∨ ∃ schemas, list_similar_schemas registry (Schema entity) = Ok schemas
               ∧ update_from_schemas schemas element entity remove_old
                 = (r, element', entity').
Proof.
  unfold update_schema_entities.
  destruct (list_similar_schemas registry (Schema entity)) as [schemas|e].
  - right. eauto.
  - intros [= _ <- _]. left. auto.
Qed.

(** X17: [update_schema_entities] only ever removes entities: the element
    keeps its name, every entity it carries afterwards it carried before,
    unchanged, and entities are still stored under their schema GUIDs. *)
Theorem update_only_removes_entities registry element entity remove_old r element' entity' :
  element_wf element →
  update_schema_entities registry element entity remove_old = (r, element', entity') →
  Name element' = Name element
  ∧ entities element' ⊆ entities element
  ∧ element_wf element'.
Proof.
  intros Hwf Hrun.
  destruct (update_schema_entities_run _ _ _ _ _ _ _ Hrun)
    as [[-> _]|(schemas & _ & Hloop)]; [done|].
  pose proof (update_from_schemas_entities _ _ _ _ _ _ _ Hwf Hloop) as Hkeys.
  assert (Hsub : entities element' ⊆ entities element).
  { apply map_subseteq_spec. intros k old Hk.
    destruct (Hkeys k) as [Hsame|(Hnone & _)]; congruence. }
  split; [exact (update_from_schemas_Name _ _ _ _ _ _ _ Hloop)|]. split; [exact Hsub|].
  intros k old s Hk. apply (Hwf k old s).
  exact (lookup_weaken _ _ _ _ Hk Hsub).
Qed.

Lemma update_from_schemas_other_key schemas k :
  ∀ element entity remove_old r element' entity',
  element_wf element →
  Forall (fun schema => GUID schema ≠ k) schemas →
  update_from_schemas schemas element entity remove_old = (r, element', entity') →
  entities element' !! k = entities element !! k.
Proof.
  induction schemas as [|schema rest IH];
    intros element entity remove_old r element' entity' Hwf Hne; simpl.
  - intros [= _ <- _]. reflexivity.
  - apply Forall_cons in Hne as [Hhead Hrest].
    destruct (Schema (GetEntity element schema)) as [old_schema|] eqn:Hold;
      [|apply IH; assumption].
    destruct (transfer_field_data _ entity) as [[u|e] entity1].
    + destruct remove_old; simpl; [|apply IH; assumption].
      intros Hrun. apply IH in Hrun; [|apply DeleteEntity_wf; exact Hwf|exact Hrest].
      rewrite Hrun. simpl. apply lookup_delete_ne.
      rewrite (Hwf _ _ _ (GetEntity_valid _ _ _ Hold) Hold). exact Hhead.
    + intros [= _ <- _]. reflexivity.
Qed.

Lemma update_schema_entities_own_key
    registry element entity schema remove_old r element' entity' :
  element_wf element →
  Schema entity = Some schema →
  update_schema_entities registry element entity remove_old = (r, element', entity') →
  entities element' !! GUID schema = entities element !! GUID schema.
Proof.
  intros Hwf Hschema Hrun.
  destruct (update_schema_entities_run _ _ _ _ _ _ _ Hrun)
    as [[-> _]|(schemas & Hsimilar & Hloop)]; [reflexivity|].
  apply (update_from_schemas_other_key _ (GUID schema) _ _ _ _ _ _ Hwf) in Hloop;
    [exact Hloop|].
  rewrite Hschema in Hsimilar. apply Forall_forall. intros s Hs.
  destruct (list_similar_schemas_valid registry schema)
    as (schemas' & Hsimilar' & _ & Hspec & _).
  rewrite Hsimilar in Hsimilar'. injection Hsimilar' as <-.
  apply Hspec in Hs as (_ & _ & Hne). exact Hne.
Qed.

(** X18: [update_schema_entities] never touches what the element stores
    under the GUID of the new entity's own schema. *)
Theorem update_keeps_current_entity
    registry element entity schema remove_old r element' entity' :
  element_wf element →
  Schema entity = Some schema →
  update_schema_entities registry element entity remove_old = (r, element', entity') →
  entities element' !! GUID schema = entities element !! GUID schema.
Proof. apply update_schema_entities_own_key. Qed.

Lemma update_from_schemas_removes_all schemas : ∀ element entity element' entity',
  element_wf element →
  update_from_schemas schemas element entity true = (Ok (), element', entity') →
  ∀ schema, schema ∈ schemas → IsValid (GetEntity element' schema) = false.
Proof.
  induction schemas as [|schema rest IH]; intros element entity element' entity' Hwf; simpl.
  - intros _ schema Hin. inversion Hin.
  - destruct (Schema (GetEntity element schema)) as [old_schema|] eqn:Hold.
    + destruct (transfer_field_data _ entity) as [[u|e] entity1]; [|discriminate]. simpl.
      intros Hrun s Hin.
      pose proof (DeleteEntity_wf element old_schema Hwf) as Hwf1.
      apply list_elem_of_In in Hin. destruct Hin as [<-|Hin];
        [|apply (IH _ _ _ _ Hwf1 Hrun), list_elem_of_In, Hin].
      pose proof (Hwf _ _ _ (GetEntity_valid _ _ _ Hold) Hold) as Hguid.
      pose proof (update_from_schemas_entities _ _ _ _ _ _ _ Hwf1 Hrun (GUID old_schema))
        as Hkey.
      simpl in Hkey. rewrite lookup_delete_eq in Hkey.
      assert (Hnone : entities element' !! GUID old_schema = None)
        by (destruct Hkey as [Hkey|[Hkey _]]; exact Hkey).
      rewrite Hguid in Hnone.
      unfold IsValid, GetEntity. rewrite Hnone. reflexivity.
    + intros Hrun s Hin.
      apply list_elem_of_In in Hin. destruct Hin as [<-|Hin];
        [|apply (IH _ _ _ _ Hwf Hrun), list_elem_of_In, Hin].
      pose proof (update_from_schemas_entities _ _ _ _ _ _ _ Hwf Hrun (GUID schema))
        as Hkey.
      unfold IsValid, GetEntity in *.
      destruct Hkey as [->|[-> _]]; [rewrite Hold|]; reflexivity.
Qed.

(** X19: after a run of [update_schema_entities] with [remove_old] that
    returns without error, the element carries no valid entity of any other
    registered schema with the name of the new entity's schema. *)
Theorem update_removes_every_old_entity registry element entity schema element' entity' :
  element_wf element →
  Schema entity = Some schema →
  update_schema_entities registry element entity true = (Ok (), element', entity') →
  ∀ old_schema,
    old_schema ∈ registry →
    SchemaName old_schema = SchemaName schema →
    GUID old_schema ≠ GUID schema →
    IsValid (GetEntity element' old_schema) = false.
Proof.
  intros Hwf Hschema Hrun old_schema Hin Hname Hguid.
  destruct (update_schema_entities_run _ _ _ _ _ _ _ Hrun)
    as [[_ Hfail]|(schemas & Hsimilar & Hloop)].
  - rewrite Hschema in Hfail.
    destruct (list_similar_schemas_valid registry schema) as (schemas & Heq & _).
    rewrite Heq in Hfail. discriminate Hfail.
  - apply (update_from_schemas_removes_all _ _ _ _ _ Hwf Hloop).
    rewrite Hschema in Hsimilar.
    destruct (list_similar_schemas_valid registry schema)
      as (schemas' & Hsimilar' & _ & Hspec & _).
    rewrite Hsimilar in Hsimilar'. injection Hsimilar' as <-.
    apply Hspec. auto.
Qed.

End MigrationMore.

Lemma tagged_wall_wf : element_wf tagged_wall.
Proof.
  intros k e s Hk. unfold tagged_wall in Hk. simpl in Hk.
  apply lookup_singleton_Some in Hk as [<- <-].
  intros [= <-]. reflexivity.
Qed.

Lemma transfer_skips_unmatched_fields_witness :
  @transfer_field_data demo_host old_count_entity text_count_entity
  = (Ok (), text_count_entity).
Proof.
  refine (@transfer_skips_unmatched_fields demo_host old_count_entity text_count_entity
            Counters_old Counters_text _ _ _).
  - reflexivity.
  - reflexivity.
  - intros f Hf. apply list_elem_of_In in Hf. simpl in Hf.
    destruct Hf as [<-|[<-|[]]]; simpl; [split; [reflexivity|discriminate]|exact I].
Defined.

Lemma update_without_removal_keeps_element_witness : wall = wall.
Proof.
  refine (@update_without_removal_keeps_element demo_host [Counters_old; Counters_new]
            wall new_count_entity
            (Raise (HostError "requested type does not match the field"))
            wall new_count_entity _).
  reflexivity.
Defined.

Lemma update_only_removes_entities_witness :
  Name bare_wall = Name tagged_wall
  ∧ entities bare_wall ⊆ entities tagged_wall
  ∧ element_wf bare_wall.
Proof.
  refine (@update_only_removes_entities demo_host [Metadata_old; Metadata_new]
            tagged_wall new_tags_entity true (Ok ()) bare_wall new_tags_entity
            tagged_wall_wf _).
  reflexivity.
Defined.

Lemma update_keeps_current_entity_witness :
  entities bare_wall !! GUID Metadata_new = entities tagged_wall !! GUID Metadata_new.
Proof.
  refine (@update_keeps_current_entity demo_host [Metadata_old; Metadata_new]
            tagged_wall new_tags_entity Metadata_new true (Ok ()) bare_wall new_tags_entity
            tagged_wall_wf _ _).
  - reflexivity.
  - reflexivity.
Defined.

Lemma update_removes_every_old_entity_witness :
  IsValid (GetEntity bare_wall Metadata_old) = false.
Proof.
  refine (@update_removes_every_old_entity demo_host [Metadata_old; Metadata_new]
            tagged_wall new_tags_entity Metadata_new bare_wall new_tags_entity
            tagged_wall_wf _ _ Metadata_old _ _ _).
  - reflexivity.
  - reflexivity.
  - left.
  - reflexivity.
  - discriminate.
Defined.

Section Scope.
Context `{Host}.

(** X20: a [BaseSchema] instance wraps a valid entity: the element's own
    entity for the schema of the class when that is valid, otherwise a new
    empty entity of that schema; the element itself is not changed. *)
Theorem BaseSchema_init_wraps_valid_entity cls registry element_ update_ self cls' registry' :
  BaseSchema_init cls registry element_ update_ = (Ok self, cls', registry') →
  element self = element_ ∧ update self = update_
  ∧ IsValid (_wrapped self) = true
  ∧ ∃ schema,
      SchemaMeta_schema cls registry = (Ok schema, cls', registry')
      ∧ (IsValid (GetEntity element_ schema) = true →
         _wrapped self = GetEntity element_ schema)
      ∧ (IsValid (GetEntity element_ schema) = false →
         _wrapped self = {| Schema := Some schema; stored := ∅ |}).
Proof.
  unfold BaseSchema_init.
  destruct (SchemaMeta_schema cls registry) as [[[schema|e] cls1] registry1];
    [|discriminate].
  intros [= <- <- <-]. cbn [element update _wrapped].
  split; [reflexivity|]. split; [reflexivity|].
  destruct (IsValid (GetEntity element_ schema)) eqn:Hvalid; cbn [negb].
  - split; [exact Hvalid|]. exists schema. split; [reflexivity|].
    split; [auto|congruence].
  - split; [reflexivity|]. exists schema. split; [reflexivity|].
    split; [congruence|auto].
Qed.

(** X21: what a scope stores on exit is what the next [BaseSchema] opened
    on the element wraps, for a class bound to the schema of the stored
    entity. *)
Theorem stored_entity_is_wrapped_again self exc self' cls schema registry update_ :
  BaseSchema_exit self exc = (Ok (), self') →
  Schema (_wrapped self) = Some schema →
  _schema cls = Some (Some schema) →
  BaseSchema_init cls registry (element self') update_
  = (Ok {| element := element self'; update := update_; _wrapped := _wrapped self |},
     cls, registry).
Proof.
  unfold BaseSchema_exit, Transaction, SetEntity. intros Hexit Hschema Hcls.
  rewrite Hschema in Hexit.
  destruct (SetEntity_accepts (element self) (_wrapped self)); [|discriminate].
  injection Hexit as <-. unfold BaseSchema_init, SchemaMeta_schema.
  rewrite (mro_schema_own _ _ Hcls). unfold GetEntity, IsValid. simpl.
  rewrite lookup_insert_eq. simpl. rewrite Hschema. reflexivity.
Qed.

(** X22: when the host refuses the entity on exit, the scope ends with the
    host's error, also when the body had raised another one, and the element
    is as the body left it. *)
Theorem refused_store_replaces_body_error registry self body self1 r_body self2 e :
  BaseSchema_enter registry self = (Ok (), self1) →
  body self1 = (r_body, self2) →
  SetEntity (element self2) (_wrapped self2) = Raise e →
  ∃ self3,
    with_BaseSchema registry self body = (Raise e, self3)
    ∧ element self3 = element self2
    ∧ _wrapped self3 = _wrapped self2.
Proof.
  intros Henter Hbody Hset. unfold with_BaseSchema.
  rewrite Henter, Hbody. unfold BaseSchema_exit, Transaction. rewrite Hset.
  destruct r_body as [[]|e0]; eexists; (split; [reflexivity|]); split; reflexivity.
Qed.

(** X23: what [get] returns has the shape of the field: a Python list for
    an [Array], a dict for a [Map], and for a [Simple] field never a bare
    host entity, which is wrapped. *)
Theorem Entity_get_shape wrapped field unit_type_id value :
  Entity_get wrapped field unit_type_id = Ok value →
  ∃ f, lookup_field wrapped field = Ok (Some f)
       ∧ match FieldContainerType f with
         | Array => ∃ l, value = VList l
         | Map => ∃ items, value = VDict items
         | Simple => ∀ h, value ≠ VHostEntity h
         end.
Proof.
  unfold Entity_get. intros Hget.
  apply bind_Ok in Hget as (fo & Hlookup & Hget).
  apply bind_Ok in Hget as (u & _ & Hget).
  apply bind_Ok in Hget as (data_type & _ & Hget).
  apply bind_Ok in Hget as (key & Hkey & Hget).
  apply bind_Ok in Hget as (v & _ & Hget).
  destruct fo as [f|]; [|discriminate]. exists f. split; [exact Hlookup|].
  simpl in Hget. destruct (FieldContainerType f).
  - intros h. destruct v; injection Hget as <-; discriminate.
  - destruct v; try discriminate; injection Hget as <-; eauto.
  - destruct v; try discriminate; injection Hget as <-; eauto.
Qed.

Lemma Entity_get_by_field wrapped fo n schema unit_type_id :
  Schema wrapped = Some schema →
  GetField schema n = fo →
  Entity_get wrapped (match fo with Some f => ArgField f | None => ArgNone end) unit_type_id
  = Entity_get wrapped (ArgName n) unit_type_id.
Proof.
  intros Hschema Hfield. unfold Entity_get, lookup_field.
  rewrite Hschema. simpl. rewrite Hfield. destruct fo; reflexivity.
Qed.

(** X24: reading a field as an attribute of an instance is [get] by the
    field's name, when the class is bound to the schema of the instance's
    entity; no schema is built for it. *)
Theorem attribute_read_is_get_by_name fd wrapped owner schema registry :
  _schema owner = Some (Some schema) →
  Schema wrapped = Some schema →
  FieldDescriptor_get fd (Some wrapped) owner registry
  = (value <- Entity_get wrapped (ArgName (name fd)) None ;; Ok (FieldValue value),
     owner, registry).
Proof.
  intros Howner Hschema. unfold FieldDescriptor_get, SchemaMeta_get_field, SchemaMeta_schema.
  rewrite (mro_schema_own _ _ Howner).
  rewrite (Entity_get_by_field wrapped _ (name fd) schema None Hschema eq_refl).
  reflexivity.
Qed.

(** X25: when the schema a class is bound to lacks a field the class
    declares, reading that field on an instance raises the interpreter's
    [AttributeError], and reading it on the class returns a wrapper around
    no field. *)
Theorem attribute_read_of_missing_field fd wrapped owner schema registry :
  _schema owner = Some (Some schema) →
  GetField schema (name fd) = None →
  FieldDescriptor_get fd (Some wrapped) owner registry
  = (Raise (AttributeError "'NoneType' object has no attribute 'GetSpecTypeId'"),
     owner, registry)
  ∧ FieldDescriptor_get fd None owner registry = (Ok (FieldWrapper None), owner, registry).
Proof.
  intros Howner Hfield. unfold FieldDescriptor_get, SchemaMeta_get_field, SchemaMeta_schema.
  rewrite (mro_schema_own _ _ Howner), Hfield. split; reflexivity.
Qed.

End Scope.

Lemma BaseSchema_init_wraps_valid_entity_witness :
  IsValid {| Schema := Some Metadata_new; stored := ∅ |} = true.
Proof.
  refine (proj1 (proj2 (proj2
            (@BaseSchema_init_wraps_valid_entity demo_host Metadata_class [Metadata_new]
               bare_wall true
               {| element := bare_wall; update := true;
                  _wrapped := {| Schema := Some Metadata_new; stored := ∅ |} |}
               Metadata_class [Metadata_new] _)))).
  reflexivity.
Defined.

Lemma stored_entity_is_wrapped_again_witness :
  @BaseSchema_init demo_host Metadata_class [Metadata_new]
    {| Name := "Wall"; entities := {[ 2%N := tagged_entity ]} |} false
  = (Ok {| element := {| Name := "Wall"; entities := {[ 2%N := tagged_entity ]} |};
           update := false; _wrapped := tagged_entity |},
     Metadata_class, [Metadata_new]).
Proof.
  refine (@stored_entity_is_wrapped_again demo_host
            {| element := bare_wall; update := true; _wrapped := tagged_entity |} None
            {| element := {| Name := "Wall"; entities := {[ 2%N := tagged_entity ]} |};
               update := true; _wrapped := tagged_entity |}
            Metadata_class Metadata_new [Metadata_new] false _ _ _).
  - reflexivity.
  - reflexivity.
  - reflexivity.
Defined.

Lemma Entity_get_shape_witness :
  ∃ f, @lookup_field tagged_entity (ArgName "tags") = Ok (Some f)
       ∧ match FieldContainerType f with
         | Array => ∃ l, VList [VStr "draft"] = VList l
         | Map => ∃ items, VList [VStr "draft"] = VDict items
         | Simple => ∀ h, VList [VStr "draft"] ≠ VHostEntity h
         end.
Proof.
  refine (@Entity_get_shape demo_host tagged_entity (ArgName "tags") None
            (VList [VStr "draft"]) _).
  reflexivity.
Defined.

Lemma attribute_read_is_get_by_name_witness :
  @FieldDescriptor_get demo_host
     {| name := "tags"; documentation := PyNone; container_type := Array;
        value_type := String_; key_type := PyNone; spec_type_id := None;
        sub_schema_guid := PyNone |}
     (Some tagged_entity) Metadata_class [Metadata_new]
  = (value <- @Entity_get demo_host tagged_entity (ArgName "tags") None ;;
     Ok (FieldValue value),
     Metadata_class, [Metadata_new]).
Proof.
  refine (@attribute_read_is_get_by_name demo_host
            {| name := "tags"; documentation := PyNone; container_type := Array;
               value_type := String_; key_type := PyNone; spec_type_id := None;
               sub_schema_guid := PyNone |}
            tagged_entity Metadata_class Metadata_new [Metadata_new] _ _).
  - reflexivity.
  - reflexivity.
Defined.

Lemma attribute_read_of_missing_field_witness :
  @FieldDescriptor_get demo_host (int32_field "a") (Some tagged_entity) Metadata_class
                       [Metadata_new]
  = (Raise (AttributeError "'NoneType' object has no attribute 'GetSpecTypeId'"),
     Metadata_class, [Metadata_new]).
Proof.
  refine (proj1 (@attribute_read_of_missing_field demo_host (int32_field "a") tagged_entity
                   Metadata_class Metadata_new [Metadata_new] _ _)).
  - reflexivity.
  - reflexivity.
Defined.

Section ScopeMore.
Context `{Host}.

(** X26: when the migration on entering a scope raises, the body is not
    run and nothing is stored: the scope ends with that error, and what the
    element holds under the GUID of the new entity's schema is what it held
    before. *)
Theorem failed_entry_stores_nothing registry self body schema e self1 :
  element_wf (element self) →
  Schema (_wrapped self) = Some schema →
  BaseSchema_enter registry self = (Raise e, self1) →
  with_BaseSchema registry self body = (Raise e, self1)
  ∧ entities (element self1) !! GUID schema = entities (element self) !! GUID schema.
Proof.
  intros Hwf Hschema Henter. unfold with_BaseSchema. rewrite Henter.
  split; [reflexivity|]. unfold BaseSchema_enter in Henter.
  destruct (update self); [|discriminate].
  destruct (update_schema_entities registry (element self) (_wrapped self) true)
    as [[r element'] wrapped'] eqn:Hrun.
  injection Henter as _ <-. simpl.
  exact (update_schema_entities_own_key _ _ _ _ _ _ _ _ Hwf Hschema Hrun).
Qed.

Lemma find_by_name (fields : list ES_Field) n :
  n ∈ FieldName <$> fields →
  ∃ f, List.find (fun f => bool_decide (FieldName f = n)) fields = Some f
       ∧ FieldName f = n.
Proof.
  induction fields as [|f0 fields IH]; simpl.
  - intros Hin. inversion Hin.
  - intros Hin. case_bool_decide as Hn; [eauto|].
    apply list_elem_of_In in Hin. destruct Hin as [Hin|Hin]; [done|].
    apply IH, list_elem_of_In, Hin.
Qed.

(** X27: on a class whose schema is not yet bound, [get_field] builds the
    schema and finds every field the class or one of its bases declares,
    under the descriptor's name. *)
Theorem declared_field_found_after_build cls registry fd fo cls' registry' :
  _schema cls = Some None →
  fd ∈ descriptors_in_mro_order cls →
  SchemaMeta_get_field cls registry (name fd) = (Ok fo, cls', registry') →
  ∃ f s, fo = Some f ∧ FieldName f = name fd
         ∧ _schema cls' = Some (Some s) ∧ f ∈ ListFields s
         ∧ registry' = (registry ++ [s])%list.
Proof.
  intros Hcls Hfd. unfold SchemaMeta_get_field, SchemaMeta_schema.
  rewrite (mro_schema_own _ _ Hcls).
  destruct (build_schema registry cls) as [[s registry1]|e] eqn:Hbuild; [|discriminate].
  intros [= <- <- <-].
  assert (Hnames : FieldName <$> ListFields s = name <$> descriptors_in_mro_order cls).
  { unfold build_schema in Hbuild. apply bind_Ok in Hbuild as (sb & Hsb & Hfinish).
    unfold Finish in Hfinish. destruct (Finish_accepts registry sb); [|discriminate].
    injection Hfinish as <- _. simpl. rewrite <- list_fmap_compose.
    apply build_schema_builder_fields in Hsb as [_ Hfields].
    exact (built_from_names _ _ Hfields). }
  destruct (find_by_name (ListFields s) (name fd)) as (f & Hfind & Hname).
  { rewrite Hnames. apply list_elem_of_fmap. eauto. }
  exists f, s. unfold GetField. rewrite Hfind.
  split; [reflexivity|]. split; [exact Hname|]. split; [reflexivity|]. split.
  - apply find_some in Hfind as [Hin _]. apply list_elem_of_In. exact Hin.
  - apply build_schema_guid in Hbuild as [_ ->]. reflexivity.
Qed.

End ScopeMore.

Lemma list_similar_schemas_spec_witness :
  is_ok (list_similar_schemas [Metadata_old; Metadata_new; Other_schema] None) = false.
Proof.
  refine (proj2 (proj2 (list_similar_schemas_spec
                          [Metadata_old; Metadata_new; Other_schema] Metadata_new)) _).
  discriminate.
Defined.

Lemma similar_schemas_of_Metadata_new :
  list_similar_schemas [Metadata_old; Metadata_new; Other_schema] (Some Metadata_new)
  = Ok [Metadata_old].
Proof. reflexivity. Qed.

Lemma refused_store_replaces_body_error_witness :
  ∃ self3,
    @with_BaseSchema demo_host []
      {| element := bare_wall; update := false;
         _wrapped := {| Schema := None; stored := ∅ |} |}
      (fun self => (Raise (ValueError "interrupted"), self))
    = (Raise (HostError "SetEntity: invalid entity"), self3)
    ∧ element self3 = bare_wall
    ∧ _wrapped self3 = {| Schema := None; stored := ∅ |}.
Proof.
  refine (@refused_store_replaces_body_error demo_host []
            {| element := bare_wall; update := false;
               _wrapped := {| Schema := None; stored := ∅ |} |}
            (fun self => (Raise (ValueError "interrupted"), self))
            {| element := bare_wall; update := false;
               _wrapped := {| Schema := None; stored := ∅ |} |}
            (Raise (ValueError "interrupted"))
            {| element := bare_wall; update := false;
               _wrapped := {| Schema := None; stored := ∅ |} |}
            (HostError "SetEntity: invalid entity") _ _ _).
  - reflexivity.
  - reflexivity.
  - reflexivity.
Defined.

Lemma failed_entry_stores_nothing_witness :
  @with_BaseSchema demo_host [Counters_old; Counters_new]
    {| element := wall; update := true; _wrapped := new_count_entity |}
    (fun self => (Ok (), self))
  = (Raise (HostError "requested type does not match the field"),
     {| element := wall; update := true; _wrapped := new_count_entity |})
  ∧ entities wall !! GUID Counters_new = entities wall !! GUID Counters_new.
Proof.
  refine (@failed_entry_stores_nothing demo_host [Counters_old; Counters_new]
            {| element := wall; update := true; _wrapped := new_count_entity |}
            (fun self => (Ok (), self)) Counters_new
            (HostError "requested type does not match the field")
            {| element := wall; update := true; _wrapped := new_count_entity |} _ _ _).
  - exact wall_wf.
  - reflexivity.
  - reflexivity.
Defined.

Lemma declared_field_found_after_build_witness :
  ∃ f s, Some (sample_field "a" Simple Int32 None) = Some f
         ∧ FieldName f = name (int32_field "a")
         ∧ _schema (set_schema sample_Derived
                      (sample_schema 2%N "Derived" [sample_field "b" Simple Int32 None;
                                                    sample_field "a" Simple Int32 None]))
           = Some (Some s)
         ∧ f ∈ ListFields s
         ∧ [sample_schema 2%N "Derived" [sample_field "b" Simple Int32 None;
                                         sample_field "a" Simple Int32 None]]
           = ([] ++ [s])%list.
Proof.
  refine (@declared_field_found_after_build demo_host sample_Derived [] (int32_field "a")
            (Some (sample_field "a" Simple Int32 None))
            (set_schema sample_Derived
               (sample_schema 2%N "Derived" [sample_field "b" Simple Int32 None;
                                             sample_field "a" Simple Int32 None]))
            [sample_schema 2%N "Derived" [sample_field "b" Simple Int32 None;
                                          sample_field "a" Simple Int32 None]] _ _ _).
  - reflexivity.
  - apply list_elem_of_In. simpl. tauto.
  - reflexivity.
Defined.

Lemma sample_Tagged_declared :
  @SchemaMeta_new demo_host [] "Tagged" [BaseSchema_class]
                  [("guid", AttrObj (PyStr "G3")); ("vendor_id", AttrObj (PyStr "AB"))]
  = Ok sample_Tagged.
Proof. reflexivity. Qed.

Lemma labels_field_declared :
  @map_field demo_host (PyStr "string") (PyStr "int32") PyNone PyNone "labels" PyNone
  = Ok labels_field.
Proof. reflexivity. Qed.
